(** * GoldMIND API server: a shallow embedding of [goldmind_api_server.py]

    The development follows the Python module top-down: first the values the
    program computes with (Python [int] as [Z], Python [float] as the kernel's
    binary64 numbers, [str] as [string], [dict] caches as [gmap]), then the
    exceptions and the builtins the module calls ([round], [/], [str], list
    indexing, global name lookup), then the class [GoldMINDAPI] method by
    method, the Flask routes, and finally the properties. *)

From Stdlib Require Import ZArith Floats Bool Lia.
From stdpp Require Import base option list strings pretty gmap.

Set Warnings "-inexact-float".
Local Open Scope string_scope.
Local Open Scope Z_scope.

(** ** Python values *)

Module Py.

(** *** Exceptions

    Only the exception classes the module's own operations can raise are
    listed; all of them derive from [Exception]. *)
Inductive exn : Type :=
  | NameError (name : string)
  | IndexError
  | ZeroDivisionError
  | OverflowError
  | ValueError (message : string).

(** [str(e)], as interpolated into the error payload. *)
Definition str_exn (e : exn) : string :=
  match e with
  | NameError name => "name '" +:+ name +:+ "' is not defined"
  | IndexError => "list index out of range"
  | ZeroDivisionError => "division by zero"
  | OverflowError => "integer division result too large for a float"
  | ValueError message => message
  end.

(** [isinstance(e, Exception)]: what an [except Exception] clause catches. *)
Definition is_Exception (e : exn) : bool :=
  match e with
  | NameError _ | IndexError | ZeroDivisionError | OverflowError
  | ValueError _ => true
  end.

(** The outcome of evaluating an expression: a value or a raised exception. *)
Inductive Result (A : Type) : Type :=
  | Ok (a : A)
  | Raise (e : exn).
Arguments Ok {A} a.
Arguments Raise {A} e.

#[global] Instance Result_ret : MRet Result := fun _ a => Ok a.
#[global] Instance Result_bind : MBind Result := fun _ _ f r =>
  match r with
  | Ok a => f a
  | Raise e => Raise e
  end.

(** *** Floats *)

(** The float of a natural number below [2^63]; exact up to [2^53]. *)
Definition of_small (m : Z) : float := PrimFloat.of_uint63 (Uint63.of_Z m).

(** Nearest integer to [p / q] for [0 < q], ties to the even neighbour. *)
Definition round_half_even_div (p q : Z) : Z :=
  let d := p / q in
  match 2 * (p mod q) ?= q with
  | Lt => d
  | Gt => d + 1
  | Eq => if Z.even d then d else d + 1
  end.

(** The largest [k] with [2^k <= p / q], for positive [p] and [q]. *)
Definition floor_log2_ratio (p q : Z) : Z :=
  let k := Z.log2 p - Z.log2 q in
  let below := if 0 <=? k then q * 2 ^ k <=? p else q <=? p * 2 ^ (- k) in
  if below then k else k - 1.

(** The binary64 number nearest to the rational [p / q] ([0 <= p], [0 < q]),
    ties to even: the correctly rounded conversion that both [int / int] and
    the decimal-to-binary step of [round] perform.  A quotient beyond the
    largest finite float comes out as [infinity]. *)
Definition nearest_float (p q : Z) : float :=
  if p =? 0 then 0%float
  else
    let e := Z.max (floor_log2_ratio p q - 52) (-1074) in
    let m := if 0 <=? e then round_half_even_div p (q * 2 ^ e)
             else round_half_even_div (p * 2 ^ (- e)) q in
    Z.ldexp (of_small m) e.

(** [float(n)] on an [int]: the nearest float.  The module converts only
    small literals and the timeout this way, all held exactly. *)
Definition of_Z (n : Z) : float :=
  if n <? 0 then (- nearest_float (- n) 1)%float else nearest_float n 1.

(** Halfway between the largest finite float and [2^1024]: a magnitude from
    here on rounds out of the finite floats. *)
Definition overflow_threshold : Z := 2 ^ 1024 - 2 ^ 970.

(** [a / b] on [int]s (true division): the correctly rounded quotient,
    [ZeroDivisionError] on a zero divisor, [OverflowError] when the quotient
    is too large for a float. *)
Definition int_truediv (a b : Z) : Result float :=
  if b =? 0 then Raise ZeroDivisionError
  else if overflow_threshold * Z.abs b <=? Z.abs a then Raise OverflowError
  else
    let r := nearest_float (Z.abs a) (Z.abs b) in
    Ok (if xorb (a <? 0) (b <? 0) then (- r)%float else r).

(** [round(x, ndigits)] on a [float], for the [0 <= ndigits] the module uses
    (1, 2 and 3).  CPython rounds the exact binary value of [x] to [ndigits]
    decimals, ties to even, and converts that decimal back to the nearest
    float; zeros, infinities and NaN round to themselves. *)
Definition round (x : float) (ndigits : Z) : float :=
  match Prim2SF x with
  | S754_finite s m e =>
      let scale := 10 ^ ndigits in
      let n := if 0 <=? e then Zpos m * 2 ^ e * scale
               else round_half_even_div (Zpos m * scale) (2 ^ (- e)) in
      let r := nearest_float n scale in
      if s then (- r)%float else r
  | _ => x
  end.

(** *** Sequences and names *)

(** [seq[i]] on a list, negative indices counting from the end. *)
Definition index {A : Type} (seq : list A) (i : Z) : Result A :=
  let n := Z.of_nat (length seq) in
  let j := if i <? 0 then i + n else i in
  if (0 <=? j) && (j <? n)
  then match seq !! Z.to_nat j with
       | Some x => Ok x
       | None => Raise IndexError
       end
  else Raise IndexError.

(** [sys.int_max_str_digits], at its default: CPython refuses to convert an
    [int] of more digits to a decimal string. *)
Definition int_max_str_digits : Z := 4300.
Definition str_int_limit : Z := 10 ^ int_max_str_digits.
#[global] Opaque str_int_limit.

(** [str(n)] on an [int], also the text an f-string puts for [{n}] and the
    numeral [json.dumps] writes: the decimal numeral, [ValueError] when the
    number has more than [int_max_str_digits] digits. *)
Definition str_int (n : Z) : Result string :=
  if Z.abs n <? str_int_limit then Ok (pretty n)
  else Raise (ValueError
    "Exceeds the limit (4300 digits) for integer string conversion; use sys.set_int_max_str_digits() to increase the limit").

(** [x < n] for a float [x] and an [int] [n]: Python compares the exact
    values; a NaN is below nothing. *)
Definition compare_float_int (x : float) (n : Z) : option comparison :=
  match Prim2SF x with
  | S754_nan => None
  | S754_infinity s => Some (if s then Lt else Gt)
  | S754_zero _ => Some (0 ?= n)
  | S754_finite s m e =>
      let v := if s then Zneg m else Zpos m in
      Some (if 0 <=? e then v * 2 ^ e ?= n else v ?= n * 2 ^ (- e))
  end.
Definition lt_float_int (x : float) (n : Z) : bool :=
  match compare_float_int x n with
  | Some Lt => true
  | _ => false
  end.

(** [int(x)] on a finite float: the integer part, towards zero.  ([int]
    raises on NaN and on the infinities; the module's one call passes the
    seconds of a [timedelta], which are finite, and the embedding gives 0
    there.) *)
Definition int_of_float (x : float) : Z :=
  match Prim2SF x with
  | S754_finite s m e =>
      let a := if 0 <=? e then Zpos m * 2 ^ e else Zpos m / 2 ^ (- e) in
      if s then - a else a
  | _ => 0
  end.

(** [max(a, b)] and [min(a, b)] on floats: the first argument unless the
    second is strictly larger (smaller). *)
Definition max (a b : float) : float := if PrimFloat.ltb a b then b else a.
Definition min (a b : float) : float := if PrimFloat.ltb b a then b else a.

End Py.

Import Py.

(** ** The module [goldmind_api_server]

    Names bound at module level when the file is imported, in source order:
    the [from flask import ...] line, the plain imports, [logger], the class,
    [app], [goldmind], [DASHBOARD_HTML] and the five route functions.  The
    statement [import random] stands inside [get_market_analysis] only and
    binds a local of that function. *)
Definition module_globals : list string :=
  [ "Flask"; "jsonify"; "request"; "render_template_string";
    "os"; "sys"; "json"; "logging"; "datetime"; "timedelta"; "threading";
    "time"; "logger"; "GoldMINDAPI"; "app"; "goldmind"; "DASHBOARD_HTML";
    "dashboard"; "health"; "get_recommendation"; "metrics"; "api_info" ].

(** The builtins the module refers to. *)
Definition builtins : list string :=
  [ "round"; "min"; "max"; "len"; "int"; "str"; "print"; "Exception" ].

(** Evaluating a name that is not local to the running function: looked up
    in the module's globals, then in the builtins, else [NameError]. *)
Definition load_global (name : string) : Result unit :=
  if bool_decide (name ∈ module_globals) || bool_decide (name ∈ builtins)
  then Ok tt
  else Raise (NameError name).

(** *** The outside world

    Everything a request reads from outside the process, one field per call
    site: clock readings and the draws of the random generator.  Datetimes
    are microseconds on the local clock; [isoformat()] renders them
    injectively, so payloads carry the datetime itself. *)
Record Oracle : Type := {
  time_time : float;               (* time.time(), line 50 *)
  uniform_price_change : float;    (* random.uniform(-volatility, volatility), line 108 *)
  randint_volume : Z;              (* random.randint(1000000, 3000000), line 115 *)
  uniform_rsi : float;             (* random.uniform(30, 70), line 116 *)
  uniform_macd : float;            (* random.uniform(-5, 15), line 117 *)
  choice_bollinger : nat;          (* line 118 *)
  choice_trend : nat;              (* line 119 *)
  choice_portfolio : nat;          (* line 133 *)
  choice_frequency : nat;          (* line 134 *)
  choice_strategy : nat;           (* line 135 *)
  choice_action : nat;             (* line 154 *)
  datetime_now_created : Z;        (* datetime.now(), line 75 *)
  datetime_now_expires : Z;        (* datetime.now(), line 76 *)
  datetime_now_error : Z           (* datetime.now(), line 97 *)
}.

(** [random.choice(seq)] given the generator's draw for this call site:
    [seq[randbelow(len(seq))]], [IndexError] on an empty sequence. *)
Definition random_choice {A : Type} (draw : nat) (seq : list A) : Result A :=
  match seq with
  | [] => Raise IndexError
  | _ => index seq (Z.of_nat (draw mod length seq)%nat)
  end.

(** [timedelta(minutes=5)] in microseconds. *)
Definition five_minutes : Z := 5 * 60 * 1000000.

(** [timedelta.total_seconds()]: the microseconds divided by [10**6], a true
    division of [int]s.  A [timedelta] holds fewer than [10**9] days, so the
    quotient is far inside the finite floats. *)
Definition total_seconds (microseconds : Z) : float :=
  let r := nearest_float (Z.abs microseconds) 1000000 in
  if microseconds <? 0 then (- r)%float else r.

(** ** The class [GoldMINDAPI] *)

(** *** Data *)

(** The dict built by [get_market_analysis]. *)
Record MarketConditions : Type := {
  current_price : float;
  change_24h : float;
  change_percent_24h : float;
  volume : Z;
  rsi : float;
  macd : float;
  bollinger_position : string;
  trend : string;
  volatility : float
}.

(** The dict built by [get_user_profile]. *)
Record UserProfile : Type := {
  profile_user_id : Z;
  risk_tolerance : string;
  experience_level : string;
  portfolio_size : string;
  trading_frequency : string;
  preferred_strategy : string
}.

(** The sentence built by [generate_reasoning]: the template chosen and the
    values interpolated into it, which determine the rendered text. *)
Inductive Reasoning : Type :=
  | ReasoningBuy (trend : string) (rsi : float) (risk_level : string)
  | ReasoningSell (rsi : float)
  | ReasoningHold (titled_trend : string)
  | ReasoningDefault.

(** The dict [recommendation] of [generate_recommendation]. *)
Record Recommendation : Type := {
  user_id : Z;
  action : string;
  confidence : float;
  target_price : float;
  stop_loss : float;
  reasoning : Reasoning;
  market_data : MarketConditions;
  user_profile : UserProfile;
  timestamp : Z;
  expires_at : Z;
  system_status : string;
  rec_api_version : string
}.

(** What [generate_recommendation] returns: the recommendation dict, or the
    dict of its [except] clause. *)
Inductive Payload : Type :=
  | RecommendationPayload (r : Recommendation)
  | ErrorPayload (error : string) (user_id : Z) (timestamp : Z)
                 (system_status : string).

(** The keys of a returned dict. *)
Definition payload_keys (p : Payload) : list string :=
  match p with
  | RecommendationPayload _ =>
      [ "user_id"; "action"; "confidence"; "target_price"; "stop_loss";
        "reasoning"; "market_data"; "user_profile"; "timestamp";
        "expires_at"; "system_status"; "api_version" ]
  | ErrorPayload _ _ _ _ => [ "error"; "user_id"; "timestamp"; "system_status" ]
  end.

(** [self.config]. *)
Record Config : Type := {
  confidence_threshold : float;
  retrain_interval : Z;
  auto_update : bool;
  api_version : string
}.

(** A value of [self.recommendation_cache]. *)
Record CacheEntry : Type := {
  data : Recommendation;
  cache_time : float
}.

(** [self.system_metrics]. *)
Record SystemMetrics : Type := {
  requests_count : Z;
  successful_recommendations : Z;
  errors : Z;
  uptime_start : Z
}.

(** The instance [self]. *)
Record GoldMINDAPI : Type := {
  config : Config;
  recommendation_cache : gmap string CacheEntry;
  cache_timeout : Z;
  system_metrics : SystemMetrics
}.

(** [GoldMINDAPI.__init__], with the reading of [datetime.now()] at line 39. *)
Definition init (now : Z) : GoldMINDAPI :=
  {| config := {| confidence_threshold := 0.6;
                  retrain_interval := 86400;
                  auto_update := true;
                  api_version := "1.0.0" |};
     recommendation_cache := ∅;
     cache_timeout := 300;
     system_metrics := {| requests_count := 0;
                          successful_recommendations := 0;
                          errors := 0;
                          uptime_start := now |} |}.

(** *** Methods that do not touch [self] *)

(** [get_market_analysis].  The function starts with [import random], so the
    name [random] is a local here and every use of it resolves. *)
Definition get_market_analysis (o : Oracle) : Result MarketConditions :=
  let base_price := 2000.0%float in
  let volatility := 0.02%float in
  let price_change := uniform_price_change o in
  let current_price := (base_price * (1 + price_change))%float in
  bollinger ← random_choice (choice_bollinger o) [ "upper"; "middle"; "lower" ];
  trend ← random_choice (choice_trend o) [ "bullish"; "bearish"; "sideways" ];
  mret {| current_price := round current_price 2;
          change_24h := round (current_price - base_price)%float 2;
          change_percent_24h := round (price_change * 100)%float 2;
          volume := randint_volume o;
          rsi := round (uniform_rsi o) 1;
          macd := round (uniform_macd o) 2;
          bollinger_position := bollinger;
          trend := trend;
          volatility := round (volatility * 100)%float 2 |}.

(** [get_user_profile].  The dict display is evaluated entry by entry; the
    name [random] is not a local of this function and is looked up in the
    module. *)
Definition get_user_profile (o : Oracle) (user_id : Z) : Result UserProfile :=
  let risk_levels := [ "conservative"; "moderate"; "aggressive" ] in
  let experience_levels := [ "beginner"; "intermediate"; "expert" ] in
  risk ← index risk_levels (user_id `mod` 3);
  experience ← index experience_levels ((user_id `div` 3) `mod` 3);
  portfolio ← (load_global "random";;
               random_choice (choice_portfolio o) [ "small"; "medium"; "large" ]);
  frequency ← (load_global "random";;
               random_choice (choice_frequency o) [ "daily"; "weekly"; "monthly" ]);
  strategy ← (load_global "random";;
              random_choice (choice_strategy o) [ "swing"; "scalp"; "position" ]);
  mret {| profile_user_id := user_id;
          risk_tolerance := risk;
          experience_level := experience;
          portfolio_size := portfolio;
          trading_frequency := frequency;
          preferred_strategy := strategy |}.

(** [determine_action]. *)
Definition determine_action (o : Oracle) (user_profile : UserProfile)
    (market_conditions : MarketConditions) : Result string :=
  let rsi := rsi market_conditions in
  let trend := trend market_conditions in
  let risk_tolerance := risk_tolerance user_profile in
  if PrimFloat.ltb rsi (of_Z 30) && String.eqb trend "bullish" then mret "BUY"
  else if PrimFloat.ltb (of_Z 70) rsi && String.eqb trend "bearish" then mret "SELL"
  else if String.eqb risk_tolerance "conservative" then mret "HOLD"
  else if String.eqb trend "sideways" then mret "HOLD"
  else (load_global "random";;
        random_choice (choice_action o) [ "BUY"; "SELL"; "HOLD" ]).

(** [calculate_confidence]. *)
Definition calculate_confidence (user_profile : UserProfile)
    (market_conditions : MarketConditions) : float :=
  let base_confidence := 0.5%float in
  let base_confidence :=
    if negb (String.eqb (trend market_conditions) "sideways")
    then (base_confidence + 0.2)%float else base_confidence in
  let base_confidence :=
    if PrimFloat.leb (of_Z 30) (rsi market_conditions)
       && PrimFloat.leb (rsi market_conditions) (of_Z 70)
    then (base_confidence + 0.1)%float else base_confidence in
  let base_confidence :=
    if String.eqb (experience_level user_profile) "expert"
    then (base_confidence + 0.1)%float
    else if String.eqb (experience_level user_profile) "beginner"
    then (base_confidence - 0.1)%float
    else base_confidence in
  min (max base_confidence 0.1) 0.95.

(** [get_target_multiplier], with its local dict [multipliers]. *)
Definition target_multipliers : gmap string float :=
  <["BUY" := 0.05%float]> (<["SELL" := (-0.03)%float]> (<["HOLD" := 0.02%float]> ∅)).
Definition get_target_multiplier (action : string) : float :=
  default 0.02%float (target_multipliers !! action).

(** [get_stop_loss_multiplier], with its local dict [multipliers]. *)
Definition stop_loss_multipliers : gmap string float :=
  <["BUY" := 0.03%float]> (<["SELL" := 0.05%float]> (<["HOLD" := 0.02%float]> ∅)).
Definition get_stop_loss_multiplier (action : string) : float :=
  default 0.02%float (stop_loss_multipliers !! action).

(** [str.title()] on ASCII text: a letter is upper-cased when it starts a run
    of letters and lower-cased otherwise. *)
Definition is_lower (c : Ascii.ascii) : bool :=
  let n := Ascii.nat_of_ascii c in (97 <=? n)%nat && (n <=? 122)%nat.
Definition is_upper (c : Ascii.ascii) : bool :=
  let n := Ascii.nat_of_ascii c in (65 <=? n)%nat && (n <=? 90)%nat.
Definition to_upper (c : Ascii.ascii) : Ascii.ascii :=
  if is_lower c then Ascii.ascii_of_nat (Ascii.nat_of_ascii c - 32) else c.
Definition to_lower (c : Ascii.ascii) : Ascii.ascii :=
  if is_upper c then Ascii.ascii_of_nat (Ascii.nat_of_ascii c + 32) else c.

Fixpoint title_from (after_letter : bool) (s : string) : string :=
  match s with
  | EmptyString => EmptyString
  | String c rest =>
      let letter := is_lower c || is_upper c in
      String (if after_letter then to_lower c else to_upper c)
             (title_from letter rest)
  end.
Definition title (s : string) : string := title_from false s.

(** [generate_reasoning].  The three templates are built before the lookup,
    as the dict display does. *)
Definition generate_reasoning (action : string)
    (market_conditions : MarketConditions) (user_profile : UserProfile)
    : Reasoning :=
  let trend := trend market_conditions in
  let rsi := rsi market_conditions in
  let risk_level := risk_tolerance user_profile in
  let reasoning_templates : gmap string Reasoning :=
    <["BUY" := ReasoningBuy trend rsi risk_level]>
      (<["SELL" := ReasoningSell rsi]>
         (<["HOLD" := ReasoningHold (title trend)]> ∅)) in
  default ReasoningDefault (reasoning_templates !! action).

(** *** Methods on [self]

    A method that updates [self] and may raise is a function from the
    instance to an outcome and the instance as the method left it. *)
Definition M (A : Type) : Type := GoldMINDAPI → Result A * GoldMINDAPI.

#[global] Instance M_ret : MRet M := fun _ a self => (Ok a, self).
#[global] Instance M_bind : MBind M := fun _ _ f m self =>
  match m self with
  | (Ok a, self') => f a self'
  | (Raise e, self') => (Raise e, self')
  end.

(** An expression that does not touch [self]. *)
Definition lift {A : Type} (r : Result A) : M A := fun self => (r, self).
(** Reading and updating attributes of [self]. *)
Definition gets {A : Type} (f : GoldMINDAPI → A) : M A := fun self => (Ok (f self), self).
Definition modify (f : GoldMINDAPI → GoldMINDAPI) : M unit := fun self => (Ok tt, f self).

(** [logger.info(message)] and [logger.error(message)]: the message, an
    f-string, is evaluated first and may raise; writing the record does not
    touch [self]. *)
Definition logging (message : Result string) : M unit :=
  lift (message ≫= fun _ => mret tt).

(** [try: body except Exception as e: handler(e)]. *)
Definition try_except {A : Type} (body : M A) (handler : exn → M A) : M A :=
  fun self =>
    match body self with
    | (Ok a, self') => (Ok a, self')
    | (Raise e, self') =>
        if is_Exception e then handler e self' else (Raise e, self')
    end.

Definition set_metrics (f : SystemMetrics → SystemMetrics) (self : GoldMINDAPI)
    : GoldMINDAPI :=
  {| config := config self;
     recommendation_cache := recommendation_cache self;
     cache_timeout := cache_timeout self;
     system_metrics := f (system_metrics self) |}.

(** [self.system_metrics['requests_count'] += 1] *)
Definition incr_requests_count : GoldMINDAPI → GoldMINDAPI :=
  set_metrics (fun m =>
    {| requests_count := requests_count m + 1;
       successful_recommendations := successful_recommendations m;
       errors := errors m;
       uptime_start := uptime_start m |}).

(** [self.system_metrics['successful_recommendations'] += 1] *)
Definition incr_successful_recommendations : GoldMINDAPI → GoldMINDAPI :=
  set_metrics (fun m =>
    {| requests_count := requests_count m;
       successful_recommendations := successful_recommendations m + 1;
       errors := errors m;
       uptime_start := uptime_start m |}).

(** [self.system_metrics['errors'] += 1] *)
Definition incr_errors : GoldMINDAPI → GoldMINDAPI :=
  set_metrics (fun m =>
    {| requests_count := requests_count m;
       successful_recommendations := successful_recommendations m;
       errors := errors m + 1;
       uptime_start := uptime_start m |}).

(** [self.recommendation_cache[cache_key] = {'data': ..., 'cache_time': ...}] *)
Definition cache_store (cache_key : string) (entry : CacheEntry)
    (self : GoldMINDAPI) : GoldMINDAPI :=
  {| config := config self;
     recommendation_cache := <[cache_key := entry]> (recommendation_cache self);
     cache_timeout := cache_timeout self;
     system_metrics := system_metrics self |}.

(** The value of ['target_price'] (line 70) and of ['stop_loss'] (line 71)
    for a current price and an action. *)
Definition target_price_of (current_price : float) (action : string) : float :=
  round (current_price * (of_Z 1 + get_target_multiplier action))%float 2.
Definition stop_loss_of (current_price : float) (action : string) : float :=
  round (current_price * (of_Z 1 - get_stop_loss_multiplier action))%float 2.

(** Lines 58-89 of [generate_recommendation]: what runs when the cache check
    did not return. *)
Definition generate_new (o : Oracle) (user_id : Z) (cache_key : string)
    (current_time : float) : M Payload :=
  market_conditions ← lift (get_market_analysis o);
  user_profile ← lift (get_user_profile o user_id);
  action ← lift (determine_action o user_profile market_conditions);
  let confidence := calculate_confidence user_profile market_conditions in
  api_version ← gets (fun self => api_version (config self));
  let recommendation :=
    {| user_id := user_id;
       action := action;
       confidence := round confidence 3;
       target_price := target_price_of (current_price market_conditions) action;
       stop_loss := stop_loss_of (current_price market_conditions) action;
       reasoning := generate_reasoning action market_conditions user_profile;
       market_data := market_conditions;
       user_profile := user_profile;
       timestamp := datetime_now_created o;
       expires_at := datetime_now_expires o + five_minutes;
       system_status := "operational";
       rec_api_version := api_version |} in
  modify (cache_store cache_key
            {| data := recommendation; cache_time := current_time |});;
  modify incr_successful_recommendations;;
  logging (id ← str_int user_id;
           mret ("Generated new recommendation for user " +:+ id +:+ ": "
                 +:+ action));;
  mret (RecommendationPayload recommendation).

(** [f"user_{user_id}"], line 49. *)
Definition cache_key_of (user_id : Z) : Result string :=
  id ← str_int user_id; mret ("user_" +:+ id).

(** The [try] block of [generate_recommendation], lines 46-89. *)
Definition generate_recommendation_try (o : Oracle) (user_id : Z) : M Payload :=
  modify incr_requests_count;;
  cache_key ← lift (cache_key_of user_id);
  let current_time := time_time o in
  cache ← gets recommendation_cache;
  timeout ← gets cache_timeout;
  match cache !! cache_key with
  | Some cached_rec =>
      if lt_float_int (current_time - cache_time cached_rec)%float timeout
      then logging (id ← str_int user_id;
                    mret ("Returning cached recommendation for user " +:+ id));;
           mret (RecommendationPayload (data cached_rec))
      else generate_new o user_id cache_key current_time
  | None => generate_new o user_id cache_key current_time
  end.

(** The [except Exception as e] clause of [generate_recommendation], lines
    91-99: count the error, log it, return the error dict. *)
Definition generate_recommendation_except (o : Oracle) (user_id : Z) (e : exn)
    : M Payload :=
  modify incr_errors;;
  logging (id ← str_int user_id;
           mret ("Error generating recommendation for user " +:+ id +:+ ": "
                 +:+ str_exn e));;
  mret (ErrorPayload (str_exn e) user_id (datetime_now_error o) "error").

(** [generate_recommendation]: the [try] block under its [except] clause. *)
Definition generate_recommendation (o : Oracle) (user_id : Z) : M Payload :=
  try_except (generate_recommendation_try o user_id)
             (generate_recommendation_except o user_id).

(** The ['metrics'] dict of the health report. *)
Record HealthMetrics : Type := {
  total_requests : Z;
  health_successful_recommendations : Z;
  error_count : Z;
  success_rate : float;
  cache_size : Z
}.

(** The dict built by [health_check] (the rendered ['uptime_formatted']
    string, a function of the same [uptime], is left out). *)
Record HealthReport : Type := {
  health_status : string;
  health_timestamp : Z;
  version : string;
  uptime_seconds : Z;
  health_metrics : HealthMetrics;
  components : list (string * string);
  configuration : Config
}.

(** [health_check], given the two readings of [datetime.now()] at lines 201
    and 205.  The method only reads [self]. *)
Definition health_check (now_uptime now_timestamp : Z) (self : GoldMINDAPI)
    : Result HealthReport :=
  let uptime := now_uptime - uptime_start (system_metrics self) in
  ratio ← int_truediv (successful_recommendations (system_metrics self))
                      (Z.max (requests_count (system_metrics self)) 1);
  mret {| health_status := "healthy";
          health_timestamp := now_timestamp;
          version := api_version (config self);
          uptime_seconds := int_of_float (total_seconds uptime);
          health_metrics :=
            {| total_requests := requests_count (system_metrics self);
               health_successful_recommendations :=
                 successful_recommendations (system_metrics self);
               error_count := errors (system_metrics self);
               success_rate := round (ratio * of_Z 100)%float 2;
               cache_size := Z.of_nat (size (recommendation_cache self)) |};
          components := [ ("advisory_engine", "operational");
                          ("market_data", "simulated");
                          ("user_analytics", "operational");
                          ("caching", "operational") ];
          configuration := config self |}.

(** The dict built by [get_system_metrics]; it only reads [self]. *)
Record MetricsReport : Type := {
  metrics_timestamp : Z;
  metrics : SystemMetrics;
  cache_status_size : Z;
  cache_status_timeout : Z
}.

Definition get_system_metrics (now : Z) (self : GoldMINDAPI) : MetricsReport :=
  {| metrics_timestamp := now;
     metrics := system_metrics self;
     cache_status_size := Z.of_nat (size (recommendation_cache self));
     cache_status_timeout := cache_timeout self |}.

(** ** The Flask routes *)

(** A JSON body: a payload of [generate_recommendation], or the one-key dict
    [{"error": str(e)}] of the route's own [except] clause. *)
Inductive Body : Type :=
  | JsonPayload (p : Payload)
  | JsonError (error : string).

(** The keys of the JSON object (the encoder may write them in any order). *)
Definition body_keys (b : Body) : gset string :=
  match b with
  | JsonPayload p => list_to_set (payload_keys p)
  | JsonError _ => {[ "error" ]}
  end.

(** [jsonify(payload)]: every [int] in the dict is written as a decimal
    numeral, which fails for one of more than [int_max_str_digits] digits;
    floats (NaN and the infinities too) and strings are always written. *)
Definition jsonify (p : Payload) : Result Body :=
  match p with
  | RecommendationPayload r =>
      str_int (user_id r);;
      str_int (volume (market_data r));;
      str_int (profile_user_id (user_profile r));;
      mret (JsonPayload p)
  | ErrorPayload _ user_id _ _ =>
      str_int user_id;;
      mret (JsonPayload p)
  end.

(** What a view function returns: the body and the HTTP status ([200] when
    the view returns the body alone). *)
Record Response : Type := {
  body : Body;
  status_code : Z
}.

(** The [except Exception as e] clause of the view [get_recommendation],
    lines 403-405: log the error, answer [{"error": str(e)}] with 500. *)
Definition get_recommendation_except (user_id : Z) (e : exn) : M Response :=
  logging (id ← str_int user_id;
           mret ("API error for user " +:+ id +:+ ": " +:+ str_exn e));;
  mret {| body := JsonError (str_exn e); status_code := 500 |}.

(** The view [get_recommendation] of [/recommendation/<int:user_id>], acting
    on the module's instance [goldmind]. *)
Definition get_recommendation (o : Oracle) (user_id : Z) : M Response :=
  try_except
    (recommendation ← generate_recommendation o user_id;
     body ← lift (jsonify recommendation);
     mret {| body := body; status_code := 200 |})
    (get_recommendation_except user_id).

(** The ids the URL rule [/recommendation/<int:user_id>] hands to the view:
    Werkzeug's [int] converter matches digits only, so no negative id, and
    converts them with [int()], which refuses more than
    [int_max_str_digits] digits; any other path is answered 404 before the
    view runs. *)
Definition route_accepts (user_id : Z) : Prop :=
  0 <= user_id < str_int_limit.

(** The requests the five routes serve, with what each reads from outside.
    [/health] and [/metrics] call methods that only read [goldmind]; [/] and
    [/api/info] do not refer to it. *)
Inductive Request : Type :=
  | GetRecommendation (o : Oracle) (user_id : Z)
  | GetHealth (now_uptime now_timestamp : Z)
  | GetMetrics (now : Z)
  | GetDashboard
  | GetApiInfo.

(** The instance after a request has been served. *)
Definition serve (r : Request) (goldmind : GoldMINDAPI) : GoldMINDAPI :=
  match r with
  | GetRecommendation o user_id => snd (get_recommendation o user_id goldmind)
  | GetHealth _ _ | GetMetrics _ | GetDashboard | GetApiInfo => goldmind
  end.

(** The instance after a sequence of requests, oldest first. *)
Definition serve_all (rs : list Request) (goldmind : GoldMINDAPI) : GoldMINDAPI :=
  foldl (fun g r => serve r g) goldmind rs.

(** The instances the running server can be in: created by [__init__] and
    then changed by requests only. *)
Definition reachable (goldmind : GoldMINDAPI) : Prop :=
  ∃ (start : Z) (rs : list Request), goldmind = serve_all rs (init start).

(** ** Vocabulary of the statements *)

(** The entry of a user is fresh at [current_time]: it exists and the time
    since it was written is below the timeout (the test of lines 52-54). *)
Definition fresh_entry (current_time : float) (user_id : Z) (self : GoldMINDAPI)
    : option CacheEntry :=
  match cache_key_of user_id with
  | Ok cache_key =>
      match recommendation_cache self !! cache_key with
      | Some cached_rec =>
          if lt_float_int (current_time - cache_time cached_rec)%float
                          (cache_timeout self)
          then Some cached_rec else None
      | None => None
      end
  | Raise _ => None
  end.

(** The entry of a user is absent, or present and stale. *)
Definition absent_or_stale (current_time : float) (user_id : Z)
    (self : GoldMINDAPI) : Prop :=
  fresh_entry current_time user_id self = None.

(** An [int] of at most [int_max_str_digits] decimal digits. *)
Definition printable (n : Z) : Prop := Z.abs n < str_int_limit.

(** Every [int] of a recommendation can be written by [jsonify]. *)
Definition serializable (r : Recommendation) : Prop :=
  printable (user_id r) ∧ printable (volume (market_data r))
  ∧ printable (profile_user_id (user_profile r)).

(** The message of the [ValueError] that [str_int] raises. *)
Definition digits_message : string :=
  "Exceeds the limit (4300 digits) for integer string conversion; use sys.set_int_max_str_digits() to increase the limit".

(** The confidence score in the words of its description: 0.5, plus 0.2
    when the trend is not sideways, plus 0.1 when the RSI lies in [30, 70],
    plus 0.1 for an expert and minus 0.1 for a beginner, clamped into
    [0.1, 0.95]. *)
Definition clamp (lo hi x : float) : float :=
  if PrimFloat.ltb x lo then lo else if PrimFloat.ltb hi x then hi else x.

Definition confidence_by_description (trend : string) (rsi : float)
    (experience_level : string) : float :=
  let for_trend := if decide (trend = "sideways") then 0%float else 0.2%float in
  let for_rsi :=
    if PrimFloat.leb 30%float rsi && PrimFloat.leb rsi 70%float
    then 0.1%float else 0%float in
  let for_experience :=
    if decide (experience_level = "expert") then 0.1%float
    else if decide (experience_level = "beginner") then (-0.1)%float
    else 0%float in
  clamp 0.1%float 0.95%float (0.5 + for_trend + for_rsi + for_experience)%float.

(** The multiplier tables in the words of their description. *)
Definition target_multiplier_table (action : string) : float :=
  if decide (action = "BUY") then 0.05%float
  else if decide (action = "SELL") then (-0.03)%float
  else if decide (action = "HOLD") then 0.02%float
  else 0.02%float.

Definition stop_loss_multiplier_table (action : string) : float :=
  if decide (action = "BUY") then 0.03%float
  else if decide (action = "SELL") then 0.05%float
  else if decide (action = "HOLD") then 0.02%float
  else 0.02%float.

(** ** Sample inputs *)

(** An oracle whose clocks read [seconds] ([time.time()]) and [micros]
    ([datetime.now()], all three call sites), with fixed random draws. *)
Definition oracle_at (seconds : float) (micros : Z) : Oracle :=
  {| time_time := seconds;
     uniform_price_change := 0.01;
     randint_volume := 2000000;
     uniform_rsi := 50;
     uniform_macd := 1;
     choice_bollinger := 0;
     choice_trend := 0;
     choice_portfolio := 0;
     choice_frequency := 0;
     choice_strategy := 0;
     choice_action := 0;
     datetime_now_created := micros;
     datetime_now_expires := micros;
     datetime_now_error := micros |}.

(** A profile and a market reading with the fields the decision rule
    looks at, the rest fixed. *)
Definition profile_with (risk_tolerance experience_level : string) : UserProfile :=
  {| profile_user_id := 1;
     risk_tolerance := risk_tolerance;
     experience_level := experience_level;
     portfolio_size := "small";
     trading_frequency := "daily";
     preferred_strategy := "swing" |}.

Definition market_with (rsi : float) (trend : string) : MarketConditions :=
  {| current_price := 2000.01;
     change_24h := 0.01;
     change_percent_24h := 0;
     volume := 2000000;
     rsi := rsi;
     macd := 1;
     bollinger_position := "middle";
     trend := trend;
     volatility := 2 |}.

(** No counter of [m'] is below its value in [m]. *)
Definition counters_le (m m' : SystemMetrics) : Prop :=
  requests_count m <= requests_count m'
  ∧ successful_recommendations m <= successful_recommendations m'
  ∧ errors m <= errors m'.

(** A recommendation as the pipeline would assemble it, for states whose
    cache is filled by hand. *)
Definition sample_recommendation : Recommendation :=
  {| user_id := 1;
     action := "HOLD";
     confidence := 0.7;
     target_price := 2040.01;
     stop_loss := 1960.01;
     reasoning := ReasoningHold "Bullish";
     market_data := market_with 50 "bullish";
     user_profile := profile_with "conservative" "intermediate";
     timestamp := 1000000000;
     expires_at := 1300000000;
     system_status := "operational";
     rec_api_version := "1.0.0" |}.

(** The same recommendation with a market volume of 4301 digits,
    [10 ** 4300], which [jsonify] cannot write. *)
Definition oversized_recommendation : Recommendation :=
  {| user_id := 1;
     action := "HOLD";
     confidence := 0.7;
     target_price := 2040.01;
     stop_loss := 1960.01;
     reasoning := ReasoningHold "Bullish";
     market_data :=
       {| current_price := 2000.01;
          change_24h := 0.01;
          change_percent_24h := 0;
          volume := str_int_limit;
          rsi := 50;
          macd := 1;
          bollinger_position := "middle";
          trend := "bullish";
          volatility := 2 |};
     user_profile := profile_with "conservative" "intermediate";
     timestamp := 1000000000;
     expires_at := 1300000000;
     system_status := "operational";
     rec_api_version := "1.0.0" |}.

(** The requests of a sequence that ask for a recommendation. *)
Definition is_recommendation_request (r : Request) : bool :=
  match r with
  | GetRecommendation _ _ => true
  | _ => false
  end.

Definition count_recommendations (rs : list Request) : Z :=
  Z.of_nat (length (List.filter is_recommendation_request rs)).

(** The instance made by [__init__] at [start] once [n] requests have been
    counted, each of them as an error. *)
Definition after_failures (start n : Z) : GoldMINDAPI :=
  {| config := config (init start);
     recommendation_cache := ∅;
     cache_timeout := 300;
     system_metrics := {| requests_count := n;
                          successful_recommendations := 0;
                          errors := n;
                          uptime_start := start |} |}.

(** * Properties *)

(** ** The builtins on known values *)

Example round_examples :
  round 0.125 2 = 0.12%float ∧ round 0.375 2 = 0.38%float
  ∧ round 2.675 2 = 2.67%float ∧ round 1.005 2 = 1%float
  ∧ round 2.5 0 = 2%float ∧ round 69.95 1 = 70%float
  ∧ round (-0.001) 2 = (-0)%float ∧ round 1e22 2 = 1e22%float.
Proof. repeat split. Qed.

Example int_truediv_examples :
  int_truediv 1 3 = Ok 0.3333333333333333%float
  ∧ int_truediv 2 3 = Ok 0.6666666666666666%float
  ∧ int_truediv 0 (-3) = Ok (-0)%float
  ∧ int_truediv 1 0 = Raise ZeroDivisionError
  ∧ int_truediv (2 ^ 1024) 1 = Raise OverflowError.
Proof. repeat split. Qed.

Example index_examples :
  index [ "a"; "b"; "c" ] 2 = Ok "c" ∧ index [ "a"; "b"; "c" ] (-1) = Ok "c"
  ∧ index [ "a"; "b"; "c" ] 3 = Raise IndexError
  ∧ (-7) `mod` 3 = 2 ∧ (-7) `div` 3 = -3.
Proof. repeat split. Qed.

Example title_examples :
  title "bullish" = "Bullish" ∧ title "x1y hello-world" = "X1Y Hello-World".
Proof. split; reflexivity. Qed.

Example compare_examples :
  lt_float_int 299.5 300 = true ∧ lt_float_int 300 300 = false
  ∧ lt_float_int 9007199254740992 (2 ^ 53 + 1) = true
  ∧ lt_float_int nan 300 = false
  ∧ int_of_float (total_seconds (2 ^ 34 * 1000000 + 999999)) = 2 ^ 34 + 1
  ∧ int_of_float (total_seconds 1999999) = 1
  ∧ int_of_float (total_seconds (-1999999)) = -1.
Proof. repeat split; vm_compute; reflexivity. Qed.

(** ** Name resolution and the generation pipeline *)

Lemma load_global_random : load_global "random" = Raise (NameError "random").
Proof. reflexivity. Qed.

(** Indexing a three-element list with a residue modulo 3 succeeds. *)
Lemma index_mod3 {A : Type} (a b c : A) (n : Z) :
  index [a; b; c] (n `mod` 3) = Ok a
  ∨ index [a; b; c] (n `mod` 3) = Ok b
  ∨ index [a; b; c] (n `mod` 3) = Ok c.
Proof.
  assert (n `mod` 3 = 0 ∨ n `mod` 3 = 1 ∨ n `mod` 3 = 2) as Hr
    by (pose proof (Z.mod_pos_bound n 3); lia).
  destruct Hr as [-> | [-> | ->]]; [left | right; left | right; right];
    reflexivity.
Qed.

Lemma index_mod3_ok {A : Type} (a b c : A) (n : Z) :
  ∃ x, index [a; b; c] (n `mod` 3) = Ok x.
Proof. destruct (index_mod3 a b c n) as [H | [H | H]]; rewrite H; eauto. Qed.

(** [random.choice] over a three-element literal succeeds. *)
Lemma random_choice3_ok {A : Type} (a b c : A) (draw : nat) :
  ∃ x, random_choice draw [a; b; c] = Ok x.
Proof.
  unfold random_choice. cbn [length].
  assert (draw mod 3 < 3)%nat as Hlt by (apply Nat.mod_upper_bound; lia).
  destruct (draw mod 3)%nat as [| [| [| k]]]; [eauto .. | lia].
Qed.

Lemma get_market_analysis_ok (o : Oracle) :
  ∃ market_conditions, get_market_analysis o = Ok market_conditions.
Proof.
  unfold get_market_analysis.
  destruct (random_choice3_ok "upper" "middle" "lower" (choice_bollinger o))
    as [b ->].
  destruct (random_choice3_ok "bullish" "bearish" "sideways" (choice_trend o))
    as [t ->].
  cbn. eauto.
Qed.

(** [get_user_profile] evaluates the two entries computed from the user id
    and then fails on the first use of [random]. *)
Lemma get_user_profile_raises (o : Oracle) (user_id : Z) :
  get_user_profile o user_id = Raise (NameError "random").
Proof.
  unfold get_user_profile.
  destruct (index_mod3_ok "conservative" "moderate" "aggressive" user_id)
    as [risk ->].
  destruct (index_mod3_ok "beginner" "intermediate" "expert" (user_id `div` 3))
    as [experience ->].
  reflexivity.
Qed.

Lemma generate_new_raises (o : Oracle) (user_id : Z) (cache_key : string)
    (current_time : float) (self : GoldMINDAPI) :
  generate_new o user_id cache_key current_time self
  = (Raise (NameError "random"), self).
Proof.
  unfold generate_new, mbind, M_bind, lift.
  destruct (get_market_analysis_ok o) as [market_conditions ->].
  rewrite get_user_profile_raises. reflexivity.
Qed.

(** ** Long user ids *)

Lemma str_int_limit_unfold : str_int_limit = 10 ^ 4300.
Proof. with_strategy transparent [str_int_limit] reflexivity. Qed.

Lemma str_int_limit_large : 10 ^ 18 <= str_int_limit.
Proof.
  rewrite str_int_limit_unfold. apply Z.pow_le_mono_r; [reflexivity | discriminate].
Qed.

Lemma printable_or_not (n : Z) : printable n ∨ ¬ printable n.
Proof. unfold printable. lia. Qed.

(** Ids of up to 18 digits, and the first id beyond the limit, [10 ** 4300]. *)
Lemma small_printable (n : Z) : Z.abs n < 10 ^ 18 → printable n.
Proof.
  unfold printable. intros H.
  eapply Z.lt_le_trans; [exact H | exact str_int_limit_large].
Qed.

Lemma limit_unprintable : ¬ printable str_int_limit.
Proof.
  unfold printable. pose proof str_int_limit_large as H.
  assert (0 < 10 ^ 18) as Hpos by reflexivity.
  rewrite Z.abs_eq by lia. apply Z.lt_irrefl.
Qed.

Lemma str_int_printable (n : Z) : printable n → str_int n = Ok (pretty n).
Proof.
  unfold printable, str_int. intros H.
  destruct (Z.ltb_spec (Z.abs n) str_int_limit); [reflexivity | lia].
Qed.

Lemma str_int_unprintable (n : Z) :
  ¬ printable n → str_int n = Raise (ValueError digits_message).
Proof.
  unfold printable, str_int. intros H.
  destruct (Z.ltb_spec (Z.abs n) str_int_limit); [lia | reflexivity].
Qed.

Lemma str_int_ok_printable (n : Z) (numeral : string) :
  str_int n = Ok numeral → printable n.
Proof.
  intros H. destruct (printable_or_not n) as [Hp | Hp]; [exact Hp |].
  rewrite (str_int_unprintable n Hp) in H. discriminate.
Qed.

Lemma cache_key_of_printable (user_id : Z) :
  printable user_id → cache_key_of user_id = Ok ("user_" +:+ pretty user_id).
Proof.
  intros H. unfold cache_key_of. rewrite (str_int_printable _ H). reflexivity.
Qed.

Lemma cache_key_of_unprintable (user_id : Z) :
  ¬ printable user_id →
  cache_key_of user_id = Raise (ValueError digits_message).
Proof.
  intros H. unfold cache_key_of. rewrite (str_int_unprintable _ H). reflexivity.
Qed.

Lemma route_accepts_printable (user_id : Z) :
  route_accepts user_id → printable user_id.
Proof. unfold route_accepts, printable. lia. Qed.

Lemma small_route_accepts (n : Z) : 0 <= n < 10 ^ 18 → route_accepts n.
Proof.
  unfold route_accepts. intros [H0 H].
  split; [exact H0 |].
  eapply Z.lt_le_trans; [exact H | exact str_int_limit_large].
Qed.

Example str_examples :
  cache_key_of 42 = Ok "user_42" ∧ str_int (-12) = Ok "-12"
  ∧ str_int str_int_limit = Raise (ValueError digits_message)
  ∧ cache_key_of str_int_limit = Raise (ValueError digits_message).
Proof.
  split; [rewrite cache_key_of_printable by (apply small_printable; reflexivity);
          reflexivity |].
  split; [rewrite str_int_printable by (apply small_printable; reflexivity);
          reflexivity |].
  split; [apply str_int_unprintable, limit_unprintable |].
  apply cache_key_of_unprintable, limit_unprintable.
Qed.

(** ** The cache check and the [try] block *)

Lemma is_Exception_all (e : exn) : is_Exception e = true.
Proof. destruct e; reflexivity. Qed.

(** A fresh entry is found under the key of a printable id. *)
Lemma fresh_entry_printable (current_time : float) (user_id : Z)
    (self : GoldMINDAPI) (cached_rec : CacheEntry) :
  fresh_entry current_time user_id self = Some cached_rec → printable user_id.
Proof.
  unfold fresh_entry. intros H.
  destruct (printable_or_not user_id) as [Hp | Hp]; [exact Hp |].
  rewrite (cache_key_of_unprintable _ Hp) in H. discriminate.
Qed.

(** The [try] block, case by case: the key cannot be built, a fresh entry
    is returned as it is, and anything else runs the pipeline, which
    raises.  In every case the request has been counted and nothing else of
    [self] has changed. *)
Lemma generate_recommendation_try_unprintable (o : Oracle) (user_id : Z)
    (self : GoldMINDAPI) :
  ¬ printable user_id →
  generate_recommendation_try o user_id self
  = (Raise (ValueError digits_message), incr_requests_count self).
Proof.
  intros H.
  unfold generate_recommendation_try, mbind, M_bind, modify, lift.
  rewrite (cache_key_of_unprintable _ H). reflexivity.
Qed.

Lemma generate_recommendation_try_hit (o : Oracle) (user_id : Z)
    (self : GoldMINDAPI) (cached_rec : CacheEntry) :
  fresh_entry (time_time o) user_id self = Some cached_rec →
  generate_recommendation_try o user_id self
  = (Ok (RecommendationPayload (data cached_rec)), incr_requests_count self).
Proof.
  intros H. pose proof (fresh_entry_printable _ _ _ _ H) as Hp.
  unfold fresh_entry in H.
  unfold generate_recommendation_try, mbind, M_bind, modify, gets, lift, logging.
  rewrite (cache_key_of_printable _ Hp) in *. cbn.
  destruct (recommendation_cache self !! _) as [e |]; [| discriminate].
  destruct (lt_float_int _ _); [| discriminate].
  injection H as ->. rewrite (str_int_printable _ Hp). reflexivity.
Qed.

Lemma generate_recommendation_try_miss (o : Oracle) (user_id : Z)
    (self : GoldMINDAPI) :
  printable user_id →
  absent_or_stale (time_time o) user_id self →
  generate_recommendation_try o user_id self
  = (Raise (NameError "random"), incr_requests_count self).
Proof.
  intros Hp H. unfold absent_or_stale, fresh_entry in H.
  unfold generate_recommendation_try, mbind, M_bind, modify, gets, lift.
  rewrite (cache_key_of_printable _ Hp) in *. cbn.
  destruct (recommendation_cache self !! _) as [e |].
  - destruct (lt_float_int _ _); [discriminate |].
    apply generate_new_raises.
  - apply generate_new_raises.
Qed.

(** The three cases of a call. *)
Lemma call_cases (current_time : float) (user_id : Z) (self : GoldMINDAPI) :
  (∃ cached_rec, fresh_entry current_time user_id self = Some cached_rec)
  ∨ (printable user_id ∧ absent_or_stale current_time user_id self)
  ∨ (¬ printable user_id ∧ absent_or_stale current_time user_id self).
Proof.
  unfold absent_or_stale.
  destruct (fresh_entry current_time user_id self); [eauto |].
  destruct (printable_or_not user_id); auto.
Qed.

(** [generate_recommendation] in the three cases. *)
Lemma generate_recommendation_unprintable (o : Oracle) (user_id : Z)
    (self : GoldMINDAPI) :
  ¬ printable user_id →
  generate_recommendation o user_id self
  = (Raise (ValueError digits_message), incr_errors (incr_requests_count self)).
Proof.
  intros H. unfold generate_recommendation, try_except.
  rewrite (generate_recommendation_try_unprintable _ _ _ H).
  unfold generate_recommendation_except, mbind, M_bind, modify, lift, logging.
  cbn. rewrite (str_int_unprintable _ H). reflexivity.
Qed.

Lemma generate_recommendation_miss (o : Oracle) (user_id : Z)
    (self : GoldMINDAPI) :
  printable user_id →
  absent_or_stale (time_time o) user_id self →
  generate_recommendation o user_id self
  = (Ok (ErrorPayload "name 'random' is not defined" user_id
                      (datetime_now_error o) "error"),
     incr_errors (incr_requests_count self)).
Proof.
  intros Hp H. unfold generate_recommendation, try_except.
  rewrite (generate_recommendation_try_miss _ _ _ Hp H).
  unfold generate_recommendation_except, mbind, M_bind, modify, lift, logging.
  cbn. rewrite (str_int_printable _ Hp). reflexivity.
Qed.

Lemma generate_recommendation_hit (o : Oracle) (user_id : Z)
    (self : GoldMINDAPI) (cached_rec : CacheEntry) :
  fresh_entry (time_time o) user_id self = Some cached_rec →
  generate_recommendation o user_id self
  = (Ok (RecommendationPayload (data cached_rec)), incr_requests_count self).
Proof.
  intros H. unfold generate_recommendation, try_except.
  rewrite (generate_recommendation_try_hit _ _ _ _ H). reflexivity.
Qed.

(** Case analysis on a call: in the first goal it has been rewritten to its
    result on a hit, in the second to its result on a miss, in the third to
    its result for an id too long to print. *)
Ltac by_cache_check o user_id self :=
  let e := fresh "cached_rec" in
  let H := fresh "Hcheck" in
  let Hp := fresh "Hprintable" in
  destruct (call_cases (time_time o) user_id self)
    as [[e H] | [[Hp H] | [Hp H]]];
  [ rewrite ?(generate_recommendation_hit _ _ _ _ H)
  | rewrite ?(generate_recommendation_miss _ _ _ Hp H)
  | rewrite ?(generate_recommendation_unprintable _ _ _ Hp) ].

(** Serving a request never writes the cache. *)
Lemma generate_recommendation_cache (o : Oracle) (user_id : Z)
    (self : GoldMINDAPI) :
  recommendation_cache (snd (generate_recommendation o user_id self))
  = recommendation_cache self.
Proof. by_cache_check o user_id self; reflexivity. Qed.

(** The view changes [goldmind] as [generate_recommendation] does. *)
Lemma get_recommendation_state (o : Oracle) (user_id : Z) (self : GoldMINDAPI) :
  snd (get_recommendation o user_id self)
  = snd (generate_recommendation o user_id self).
Proof.
  unfold get_recommendation, get_recommendation_except, try_except,
    mbind, M_bind, lift, logging.
  destruct (generate_recommendation o user_id self) as [[p | e] s]; cbn.
  - destruct (jsonify p); cbn; [reflexivity |].
    rewrite is_Exception_all. destruct (str_int user_id); reflexivity.
  - rewrite is_Exception_all. destruct (str_int user_id); reflexivity.
Qed.

Lemma serve_cache (r : Request) (self : GoldMINDAPI) :
  recommendation_cache (serve r self) = recommendation_cache self.
Proof.
  destruct r as [o user_id | | | |]; cbn [serve]; [| reflexivity ..].
  rewrite get_recommendation_state. apply generate_recommendation_cache.
Qed.

Lemma serve_all_snoc (rs : list Request) (r : Request) (self : GoldMINDAPI) :
  serve_all (rs ++ [r]) self = serve r (serve_all rs self).
Proof. unfold serve_all. rewrite foldl_app. reflexivity. Qed.

(** The cache of the running server stays as [__init__] made it: empty. *)
Lemma reachable_cache_empty (goldmind : GoldMINDAPI) :
  reachable goldmind → recommendation_cache goldmind = ∅.
Proof.
  intros (start & rs & ->).
  induction rs as [| r rs IH] using rev_ind; [reflexivity |].
  rewrite serve_all_snoc, serve_cache. exact IH.
Qed.

(** What [generate_recommendation] does to the counters. *)
Lemma generate_recommendation_metrics (o : Oracle) (user_id : Z)
    (self : GoldMINDAPI) :
  let m := system_metrics self in
  let m' := system_metrics (snd (generate_recommendation o user_id self)) in
  requests_count m' = requests_count m + 1
  ∧ (successful_recommendations m' = successful_recommendations m)
  ∧ (errors m' = errors m ∨ errors m' = errors m + 1)
  ∧ uptime_start m' = uptime_start m.
Proof. by_cache_check o user_id self; cbn; auto. Qed.

Lemma absent_in_empty_cache (current_time : float) (user_id : Z)
    (self : GoldMINDAPI) :
  recommendation_cache self = ∅ → absent_or_stale current_time user_id self.
Proof.
  unfold absent_or_stale, fresh_entry. intros ->.
  destruct (cache_key_of user_id); [rewrite lookup_empty |]; reflexivity.
Qed.

(** Without a fresh entry a call counts the request and an error, whether
    or not the id can be printed. *)
Lemma generate_recommendation_no_hit_state (o : Oracle) (user_id : Z)
    (self : GoldMINDAPI) :
  absent_or_stale (time_time o) user_id self →
  snd (generate_recommendation o user_id self)
  = incr_errors (incr_requests_count self).
Proof.
  intros H. destruct (printable_or_not user_id) as [Hp | Hp].
  - rewrite (generate_recommendation_miss _ _ _ Hp H). reflexivity.
  - rewrite (generate_recommendation_unprintable _ _ _ Hp). reflexivity.
Qed.

(** The counters of the running server: no request has ever succeeded, and
    every request so far has been counted as an error. *)
Lemma reachable_metrics (goldmind : GoldMINDAPI) :
  reachable goldmind →
  successful_recommendations (system_metrics goldmind) = 0
  ∧ errors (system_metrics goldmind) = requests_count (system_metrics goldmind)
  ∧ 0 <= requests_count (system_metrics goldmind).
Proof.
  intros (start & rs & ->).
  induction rs as [| r rs IH] using rev_ind; [cbn; lia |].
  rewrite serve_all_snoc.
  assert (reachable (serve_all rs (init start))) as Hreach
    by (exists start, rs; reflexivity).
  set (g := serve_all rs (init start)) in *.
  destruct r as [o user_id | | | |]; cbn [serve]; [| exact IH ..].
  rewrite get_recommendation_state.
  rewrite (generate_recommendation_no_hit_state o user_id g)
    by (apply absent_in_empty_cache, reachable_cache_empty, Hreach).
  cbn. lia.
Qed.

(** ** The missing import *)

(** C1, as the code has it: the module binds no global [random]; the only
    [import random] is local to [get_market_analysis], which therefore
    succeeds, while [get_user_profile] raises [NameError] for every user
    id; for every user id of at most 4300 decimal digits whose cache entry
    is absent or stale, [generate_recommendation] returns the error payload
    [{error, user_id, timestamp, system_status: 'error'}], leaves the cache
    as it was, adds one to [requests_count] and one to [errors] and leaves
    [successful_recommendations] alone; for a longer id the call counts the
    request and the error as well but raises [ValueError] instead of
    returning; in the running server no entry is ever written and no
    success is ever counted. *)
Theorem missing_import_fails_generation :
  ("random" ∉ module_globals)
  ∧ load_global "random" = Raise (NameError "random")
  ∧ (∀ o, ∃ market_conditions, get_market_analysis o = Ok market_conditions)
  ∧ (∀ o user_id, get_user_profile o user_id = Raise (NameError "random"))
  ∧ (∀ o user_id self,
       printable user_id →
       absent_or_stale (time_time o) user_id self →
       let result := fst (generate_recommendation o user_id self) in
       let self' := snd (generate_recommendation o user_id self) in
       result = Ok (ErrorPayload "name 'random' is not defined" user_id
                                 (datetime_now_error o) "error")
       ∧ recommendation_cache self' = recommendation_cache self
       ∧ requests_count (system_metrics self')
         = requests_count (system_metrics self) + 1
       ∧ errors (system_metrics self') = errors (system_metrics self) + 1
       ∧ successful_recommendations (system_metrics self')
         = successful_recommendations (system_metrics self))
  ∧ (∀ o user_id self,
       ¬ printable user_id →
       let result := fst (generate_recommendation o user_id self) in
       let self' := snd (generate_recommendation o user_id self) in
       result = Raise (ValueError digits_message)
       ∧ recommendation_cache self' = recommendation_cache self
       ∧ requests_count (system_metrics self')
         = requests_count (system_metrics self) + 1
       ∧ errors (system_metrics self') = errors (system_metrics self) + 1
       ∧ successful_recommendations (system_metrics self')
         = successful_recommendations (system_metrics self))
  ∧ (∀ goldmind, reachable goldmind →
       recommendation_cache goldmind = ∅
       ∧ successful_recommendations (system_metrics goldmind) = 0).
Proof.
  split; [apply (bool_decide_eq_false_1 _); reflexivity |].
  split; [reflexivity |].
  split; [exact get_market_analysis_ok |].
  split; [exact get_user_profile_raises |].
  split; [| split].
  - intros o user_id self Hp H. cbn zeta.
    rewrite (generate_recommendation_miss _ _ _ Hp H). cbn. auto.
  - intros o user_id self Hp. cbn zeta.
    rewrite (generate_recommendation_unprintable _ _ _ Hp). cbn. auto.
  - intros goldmind H. split.
    + apply reachable_cache_empty, H.
    + apply reachable_metrics, H.
Qed.

(** The first request of a fresh server, for user 1. *)
Lemma missing_import_fails_generation_witness :
  let o := oracle_at 1000 7 in
  printable 1
  ∧ absent_or_stale (time_time o) 1 (init 0)
  ∧ fst (generate_recommendation o 1 (init 0))
    = Ok (ErrorPayload "name 'random' is not defined" 1 7 "error")
  ∧ errors (system_metrics (snd (generate_recommendation o 1 (init 0))))
    = errors (system_metrics (init 0)) + 1.
Proof.
  intros o.
  assert (printable 1) as Hp by (apply small_printable; reflexivity).
  assert (absent_or_stale (time_time o) 1 (init 0)) as H
    by (apply absent_in_empty_cache; reflexivity).
  split; [exact Hp |]. split; [exact H |].
  destruct missing_import_fails_generation as (_ & _ & _ & _ & Hmiss & _).
  destruct (Hmiss o 1 (init 0) Hp H) as (Hres & _ & _ & Herr & _).
  split; [exact Hres | exact Herr].
Defined.

(** C1 as stated fails: the user id [10 ** 4300] (the constant
    [str_int_limit]) has no cache entry on a fresh server, yet the call does
    not return the error payload: building the cache key raises
    [ValueError], and so does the log line of the [except] clause. *)
Lemma missing_import_long_id_raises :
  ¬ (∀ o user_id self,
       absent_or_stale (time_time o) user_id self →
       fst (generate_recommendation o user_id self)
       = Ok (ErrorPayload "name 'random' is not defined" user_id
                          (datetime_now_error o) "error")).
Proof.
  intros H.
  pose proof (generate_recommendation_unprintable (oracle_at 1000 7)
                str_int_limit (init 0) limit_unprintable) as E.
  specialize (H (oracle_at 1000 7) str_int_limit (init 0)
                (absent_in_empty_cache _ str_int_limit (init 0) eq_refl)).
  rewrite E in H. discriminate H.
Qed.

(** ** The [except] clause of [generate_recommendation] *)




(** ** Counters *)

Lemma counters_le_refl (m : SystemMetrics) : counters_le m m.
Proof. unfold counters_le. lia. Qed.

Lemma counters_le_trans (m1 m2 m3 : SystemMetrics) :
  counters_le m1 m2 → counters_le m2 m3 → counters_le m1 m3.
Proof. unfold counters_le. lia. Qed.

Lemma serve_counters (r : Request) (self : GoldMINDAPI) :
  counters_le (system_metrics self) (system_metrics (serve r self)).
Proof.
  destruct r as [o user_id | | | |]; cbn [serve]; [| apply counters_le_refl ..].
  rewrite get_recommendation_state.
  pose proof (generate_recommendation_metrics o user_id self) as H.
  cbn zeta in H. unfold counters_le. lia.
Qed.

(** C10: the counters [requests_count], [successful_recommendations] and
    [errors] never decrease: every call of [generate_recommendation] adds
    exactly one to [requests_count], and after any request, and any sequence
    of requests (recommendations, health checks, metrics reads), each counter
    is at least what it was. *)
Theorem counters_never_decrease :
  (∀ o user_id self,
     requests_count (system_metrics (snd (generate_recommendation o user_id self)))
     = requests_count (system_metrics self) + 1)
  ∧ (∀ r self, counters_le (system_metrics self) (system_metrics (serve r self)))
  ∧ (∀ rs self,
       counters_le (system_metrics self) (system_metrics (serve_all rs self))).
Proof.
  split; [| split].
  - intros o user_id self. apply generate_recommendation_metrics.
  - exact serve_counters.
  - intros rs self. induction rs as [| r rs IH] using rev_ind.
    + apply counters_le_refl.
    + rewrite serve_all_snoc.
      eapply counters_le_trans; [exact IH | apply serve_counters].
Qed.

(** ** Confidence *)

(** C4: [calculate_confidence] starts from 0.5, adds 0.2 when the trend is
    not sideways, 0.1 when the RSI lies in [30, 70], 0.1 for an expert and
    takes off 0.1 for a beginner, and clamps into [0.1, 0.95]; the value it
    returns always lies within [0.1, 0.95]. *)
Theorem calculate_confidence_bounds (user_profile : UserProfile)
    (market_conditions : MarketConditions) :
  calculate_confidence user_profile market_conditions
  = confidence_by_description (trend market_conditions) (rsi market_conditions)
                              (experience_level user_profile)
  ∧ PrimFloat.leb 0.1%float
                   (calculate_confidence user_profile market_conditions) = true
  ∧ PrimFloat.leb (calculate_confidence user_profile market_conditions)
                  0.95%float = true.
Proof.
  unfold calculate_confidence, confidence_by_description.
  destruct (PrimFloat.leb (of_Z 30) (rsi market_conditions)
            && PrimFloat.leb (rsi market_conditions) (of_Z 70)) eqn:Hrsi;
    change (of_Z 30) with 30%float in Hrsi;
    change (of_Z 70) with 70%float in Hrsi; rewrite Hrsi; clear Hrsi;
    destruct (String.eqb_spec (trend market_conditions) "sideways") as [-> | Ht];
    destruct (String.eqb_spec (experience_level user_profile) "expert")
      as [-> | He];
    destruct (String.eqb_spec (experience_level user_profile) "beginner")
      as [Hb | Hb];
    try discriminate Hb; try rewrite Hb;
    repeat case_decide; try congruence; try discriminate;
    vm_compute; auto.
Qed.

Example calculate_confidence_examples :
  calculate_confidence (profile_with "moderate" "expert") (market_with 50 "bullish")
  = 0.8999999999999999%float
  ∧ calculate_confidence (profile_with "moderate" "beginner")
                         (market_with 80 "sideways")
    = 0.4%float.
Proof. split; reflexivity. Qed.

(** ** Target and stop-loss prices *)

Lemma get_target_multiplier_table (action : string) :
  get_target_multiplier action = target_multiplier_table action.
Proof.
  unfold get_target_multiplier, target_multipliers, target_multiplier_table.
  repeat case_decide; subst; try reflexivity.
  rewrite !lookup_insert_ne, lookup_empty by congruence. reflexivity.
Qed.

Lemma get_stop_loss_multiplier_table (action : string) :
  get_stop_loss_multiplier action = stop_loss_multiplier_table action.
Proof.
  unfold get_stop_loss_multiplier, stop_loss_multipliers,
    stop_loss_multiplier_table.
  repeat case_decide; subst; try reflexivity.
  rewrite !lookup_insert_ne, lookup_empty by congruence. reflexivity.
Qed.

(** Two floats with different binary representations are different. *)
Lemma float_neq (x y : float) : Prim2SF x ≠ Prim2SF y → x ≠ y.
Proof. intros H ->. apply H. reflexivity. Qed.

(** C7, as the code has it: for every action string the target price is
    [round(current_price * (1 + m), 2)] with m = 0.05 for BUY, -0.03 for
    SELL, 0.02 for HOLD and 0.02 for any other action, and the stop-loss is
    [round(current_price * (1 - m'), 2)] with m' = 0.03 for BUY, 0.05 for
    SELL, 0.02 for HOLD and 0.02 for any other action; both results are
    rounded to two decimals; the keys of both tables are exactly BUY, SELL
    and HOLD. *)
Theorem price_levels_rounded (current_price : float) (action : string) :
  target_price_of current_price action
  = round (current_price * (1 + target_multiplier_table action))%float 2
  ∧ stop_loss_of current_price action
    = round (current_price * (1 - stop_loss_multiplier_table action))%float 2
  ∧ dom target_multipliers = ({[ "BUY"; "SELL"; "HOLD" ]} : gset string)
  ∧ dom stop_loss_multipliers = ({[ "BUY"; "SELL"; "HOLD" ]} : gset string).
Proof.
  unfold target_price_of, stop_loss_of.
  rewrite get_target_multiplier_table, get_stop_loss_multiplier_table.
  repeat split; unfold target_multipliers, stop_loss_multipliers;
    rewrite !dom_insert_L, dom_empty_L; set_solver.
Qed.

(** C7 as stated fails: at a current price of 2000.01 the BUY target is
    2100.01, not the unrounded product 2000.01 * 1.05 = 2100.0105. *)
Lemma target_price_not_plain_product :
  ¬ (∀ current_price action,
       target_price_of current_price action
       = (current_price * (1 + target_multiplier_table action))%float).
Proof.
  intros H. specialize (H 2000.01%float "BUY").
  revert H. apply float_neq. vm_compute. discriminate.
Qed.

(** ** Success rate *)

Lemma overflow_threshold_large : 1 < overflow_threshold.
Proof. reflexivity. Qed.

(** A quotient of at most one: [int / int] neither divides by zero nor
    overflows. *)
Lemma int_truediv_fraction (a b : Z) :
  0 <= a <= b → 1 <= b →
  int_truediv a b = Ok (nearest_float a b).
Proof.
  intros Ha Hb. unfold int_truediv.
  pose proof overflow_threshold_large as Ht.
  destruct (Z.eqb_spec b 0) as [-> | _]; [lia |].
  destruct (Z.leb_spec (overflow_threshold * Z.abs b) (Z.abs a)) as [Hle | _];
    [nia |].
  rewrite !Z.abs_eq by lia.
  destruct (Z.ltb_spec a 0), (Z.ltb_spec b 0); try lia.
  reflexivity.
Qed.

(** [int / int] raises [ZeroDivisionError] for a zero divisor only. *)
Lemma int_truediv_zero_division (a b : Z) :
  int_truediv a b = Raise ZeroDivisionError ↔ b = 0.
Proof.
  unfold int_truediv. destruct (Z.eqb_spec b 0) as [-> | Hb].
  - tauto.
  - destruct (_ <=? _); split; intros; try discriminate; contradiction.
Qed.

(** C8, as the code has it: in every counter state the divisor
    [max(requests_count, 1)] is not zero and [health_check] raises no
    [ZeroDivisionError]; whenever the successes do not exceed the requests
    (as in every state the server reaches) the health report is produced and
    its success rate is [successful / max(requests, 1) * 100] rounded to two
    decimals; with no request yet it is 0. *)
Theorem health_success_rate (now_uptime now_timestamp : Z) (self : GoldMINDAPI) :
  let requests := requests_count (system_metrics self) in
  let successful := successful_recommendations (system_metrics self) in
  Z.max requests 1 ≠ 0
  ∧ health_check now_uptime now_timestamp self ≠ Raise ZeroDivisionError
  ∧ (0 <= successful <= requests →
     ∃ ratio report,
       int_truediv successful (Z.max requests 1) = Ok ratio
       ∧ health_check now_uptime now_timestamp self = Ok report
       ∧ success_rate (health_metrics report) = round (ratio * 100)%float 2
       ∧ (requests = 0 → success_rate (health_metrics report) = 0%float))
  ∧ (reachable self → 0 <= successful <= requests).
Proof.
  intros requests successful. split; [lia |]. split; [| split].
  3: { intros H. apply reachable_metrics in H. subst requests successful. lia. }
  - unfold health_check. fold requests successful.
    destruct (int_truediv successful (Z.max requests 1)) as [ratio | e] eqn:E.
    + discriminate.
    + cbn. intros [= ->]. apply int_truediv_zero_division in E. lia.
  - intros H.
    assert (int_truediv successful (Z.max requests 1)
            = Ok (nearest_float successful (Z.max requests 1))) as E
      by (apply int_truediv_fraction; lia).
    exists (nearest_float successful (Z.max requests 1)).
    unfold health_check. fold requests successful. rewrite E. cbn.
    eexists. split; [reflexivity |]. split; [reflexivity |].
    split; [reflexivity |].
    intros Hz. assert (successful = 0) as -> by lia. rewrite Hz.
    reflexivity.
Qed.

(** A server that has counted three requests and one success. *)
Lemma health_success_rate_witness :
  let self := set_metrics (fun m =>
                {| requests_count := 3; successful_recommendations := 1;
                   errors := 2; uptime_start := uptime_start m |}) (init 0) in
  0 <= 1 <= 3
  ∧ ∃ report, health_check 10 10 self = Ok report
              ∧ success_rate (health_metrics report) = 33.33%float.
Proof.
  intros self.
  assert (0 <= 1 <= 3) as H by lia.
  split; [exact H |].
  destruct (proj1 (proj2 (proj2 (health_success_rate 10 10 self))) H)
    as (ratio & report & Hratio & Hreport & Hrate & _).
  exists report. split; [exact Hreport |].
  rewrite Hrate.
  injection Hratio as <-. reflexivity.
Defined.

(** C8 as stated fails: with three requests and one success the reported
    rate is 33.33, not the quotient 1 / 3 * 100 = 33.33333333333333. *)
Lemma success_rate_not_plain_quotient :
  ¬ (∀ now_uptime now_timestamp self ratio report,
       int_truediv (successful_recommendations (system_metrics self))
                   (Z.max (requests_count (system_metrics self)) 1) = Ok ratio →
       health_check now_uptime now_timestamp self = Ok report →
       success_rate (health_metrics report) = (ratio * 100)%float).
Proof.
  intros H.
  specialize (H 10 10
    (set_metrics (fun m =>
       {| requests_count := 3; successful_recommendations := 1;
          errors := 2; uptime_start := uptime_start m |}) (init 0))
    _ _ eq_refl eq_refl).
  revert H. apply float_neq. vm_compute. discriminate.
Qed.

(** ** The decision rule *)

(** The three readings the description singles out: BUY and SELL whatever
    the profile, HOLD for a conservative profile in a bullish market. *)
Lemma determine_action_buy (o : Oracle) (risk experience : string) :
  determine_action o (profile_with risk experience) (market_with 25 "bullish")
  = Ok "BUY".
Proof. reflexivity. Qed.

Lemma determine_action_sell (o : Oracle) (risk experience : string) :
  determine_action o (profile_with risk experience) (market_with 80 "bearish")
  = Ok "SELL".
Proof. reflexivity. Qed.

Lemma determine_action_conservative_hold (o : Oracle) (experience : string) :
  determine_action o (profile_with "conservative" experience)
                   (market_with 50 "bullish")
  = Ok "HOLD".
Proof. reflexivity. Qed.

(** C3, where the code departs from it: the first four branches are taken
    in the order given and return BUY, SELL, HOLD and HOLD, but the fifth
    does not return a choice among BUY, SELL and HOLD: [random] is not bound
    in [determine_action], so it raises [NameError].  For a moderate profile
    with RSI 50 and a bullish trend, where none of the first four branches
    applies, the call raises. *)
Theorem determine_action_random_branch_raises :
  (∀ o user_profile market_conditions,
     determine_action o user_profile market_conditions
     = if PrimFloat.ltb (rsi market_conditions) 30
          && String.eqb (trend market_conditions) "bullish" then Ok "BUY"
       else if PrimFloat.ltb 70 (rsi market_conditions)
               && String.eqb (trend market_conditions) "bearish" then Ok "SELL"
       else if String.eqb (risk_tolerance user_profile) "conservative"
            then Ok "HOLD"
       else if String.eqb (trend market_conditions) "sideways" then Ok "HOLD"
       else Raise (NameError "random"))
  ∧ (∀ o, determine_action o (profile_with "moderate" "beginner")
                           (market_with 50 "bullish")
          = Raise (NameError "random")).
Proof.
  split.
  - intros o user_profile market_conditions.
    unfold determine_action.
    change (of_Z 30) with 30%float. change (of_Z 70) with 70%float.
    repeat (match goal with |- context [if ?b then _ else _] =>
              destruct b; try reflexivity end).
  - intros o. reflexivity.
Qed.

(** ** The user profile *)

(** C9, where the code departs from it: for every user id the entries
    ['risk_tolerance'] and ['experience_level'] evaluate to the elements at
    index [user_id mod 3] and [(user_id div 3) mod 3] of their lists, but the
    next entry refers to [random], which is not bound in [get_user_profile]:
    the call raises [NameError] and returns no profile, for user 1 as for
    every other. *)
Theorem get_user_profile_user_1_raises :
  (∀ user_id, ∃ risk experience,
     index [ "conservative"; "moderate"; "aggressive" ] (user_id `mod` 3)
     = Ok risk
     ∧ index [ "beginner"; "intermediate"; "expert" ] ((user_id `div` 3) `mod` 3)
       = Ok experience)
  ∧ index [ "conservative"; "moderate"; "aggressive" ] (1 `mod` 3) = Ok "moderate"
  ∧ index [ "beginner"; "intermediate"; "expert" ] ((1 `div` 3) `mod` 3)
    = Ok "beginner"
  ∧ (∀ o user_id, get_user_profile o user_id = Raise (NameError "random"))
  ∧ (∀ o, get_user_profile o 1 = Raise (NameError "random")).
Proof.
  split; [| split; [reflexivity | split; [reflexivity | split]]].
  - intros user_id.
    destruct (index_mod3_ok "conservative" "moderate" "aggressive" user_id)
      as [risk Hrisk].
    destruct (index_mod3_ok "beginner" "intermediate" "expert" (user_id `div` 3))
      as [experience Hexperience].
    exists risk, experience. split; assumption.
  - exact get_user_profile_raises.
  - intros o. apply get_user_profile_raises.
Qed.

(** ** Caching *)

(** The part of the cache contract the code keeps: the cached recommendation
    is returned exactly when the user's entry exists and is younger than the
    timeout, and an entry, stale or not, is left in place. *)
Lemma cached_returned_iff_fresh (o : Oracle) (user_id : Z) (self : GoldMINDAPI)
    (r : Recommendation) :
  fst (generate_recommendation o user_id self) = Ok (RecommendationPayload r)
  ↔ ∃ cached_rec, fresh_entry (time_time o) user_id self = Some cached_rec
                  ∧ data cached_rec = r.
Proof.
  by_cache_check o user_id self; cbn.
  - rewrite Hcheck. split.
    + intros [= <-]. eauto.
    + intros (e' & [= <-] & <-). reflexivity.
  - red in Hcheck. rewrite Hcheck.
    split; [discriminate |]. intros (e' & He' & _). discriminate.
  - red in Hcheck. rewrite Hcheck.
    split; [discriminate |]. intros (e' & He' & _). discriminate.
Qed.

(** C2, where the code departs from it: two requests for user 1, one second
    apart, on a fresh server.  No recommendation is produced and none is
    cached, so the second request is not answered from the cache: both
    answers are error payloads, with different timestamps, and the cache is
    still empty. *)
Theorem two_requests_within_ttl_differ :
  let first := generate_recommendation (oracle_at 1000 1000000000) 1 (init 0) in
  let second := generate_recommendation (oracle_at 1001 1001000000) 1 (snd first) in
  fst first
  = Ok (ErrorPayload "name 'random' is not defined" 1 1000000000 "error")
  ∧ fst second
    = Ok (ErrorPayload "name 'random' is not defined" 1 1001000000 "error")
  ∧ fst first ≠ fst second
  ∧ recommendation_cache (snd second) = ∅.
Proof.
  cbv zeta.
  assert (printable 1) as Hp by (apply small_printable; reflexivity).
  rewrite (generate_recommendation_miss (oracle_at 1000 1000000000) 1 (init 0))
    by (try exact Hp; apply absent_in_empty_cache; reflexivity).
  cbn [fst snd].
  rewrite (generate_recommendation_miss (oracle_at 1001 1001000000) 1)
    by (try exact Hp; apply absent_in_empty_cache; reflexivity).
  cbn [fst snd].
  split; [reflexivity |]. split; [reflexivity |].
  split; [discriminate | reflexivity].
Qed.

(** ** The recommendation route *)

Lemma serializable_or_not (r : Recommendation) :
  serializable r ∨ ¬ serializable r.
Proof.
  unfold serializable.
  destruct (printable_or_not (user_id r)),
    (printable_or_not (volume (market_data r))),
    (printable_or_not (profile_user_id (user_profile r))); tauto.
Qed.

Lemma jsonify_serializable (r : Recommendation) :
  serializable r →
  jsonify (RecommendationPayload r) = Ok (JsonPayload (RecommendationPayload r)).
Proof.
  intros (H1 & H2 & H3). unfold jsonify.
  rewrite (str_int_printable _ H1), (str_int_printable _ H2),
    (str_int_printable _ H3).
  reflexivity.
Qed.

Lemma jsonify_unserializable (r : Recommendation) :
  ¬ serializable r →
  jsonify (RecommendationPayload r) = Raise (ValueError digits_message).
Proof.
  unfold serializable, jsonify. intros H.
  destruct (printable_or_not (user_id r)) as [H1 | H1];
    [rewrite (str_int_printable _ H1)
    | rewrite (str_int_unprintable _ H1); reflexivity].
  destruct (printable_or_not (volume (market_data r))) as [H2 | H2];
    [rewrite (str_int_printable _ H2)
    | rewrite (str_int_unprintable _ H2); reflexivity].
  destruct (printable_or_not (profile_user_id (user_profile r))) as [H3 | H3];
    [tauto | rewrite (str_int_unprintable _ H3); reflexivity].
Qed.

(** The [except] clause of the view. *)
Lemma get_recommendation_except_printable (user_id : Z) (e : exn)
    (goldmind : GoldMINDAPI) :
  printable user_id →
  get_recommendation_except user_id e goldmind
  = (Ok {| body := JsonError (str_exn e); status_code := 500 |}, goldmind).
Proof.
  intros Hp. unfold get_recommendation_except, mbind, M_bind, lift, logging.
  rewrite (str_int_printable _ Hp). reflexivity.
Qed.

(** C6, as the code has it: for a user id of at most 4300 digits, which
    covers every id the route accepts, the view answers with status 200 and
    what [generate_recommendation] returned: a cached recommendation, or,
    when the pipeline raised, the error object with the keys error, user_id,
    timestamp and system_status; on the running server it is always that
    error object.  Status 500 comes from the view's own [except] clause
    only, with the one-key body [{error}]; an exception inside the
    generation never reaches that clause, which runs when [jsonify] cannot
    write a cached recommendation.  For a longer id the view raises. *)
Theorem get_recommendation_status (o : Oracle) (user_id : Z)
    (goldmind : GoldMINDAPI) :
  (printable user_id →
   (∃ cached_rec,
      fresh_entry (time_time o) user_id goldmind = Some cached_rec
      ∧ get_recommendation o user_id goldmind
        = (if decide (serializable (data cached_rec))
           then Ok {| body := JsonPayload (RecommendationPayload (data cached_rec));
                      status_code := 200 |}
           else Ok {| body := JsonError digits_message; status_code := 500 |},
           incr_requests_count goldmind))
   ∨ (absent_or_stale (time_time o) user_id goldmind
      ∧ ∃ e self1,
          generate_recommendation_try o user_id goldmind = (Raise e, self1)
          ∧ let payload := ErrorPayload (str_exn e) user_id
                                        (datetime_now_error o) "error" in
            get_recommendation o user_id goldmind
            = (Ok {| body := JsonPayload payload; status_code := 200 |},
               incr_errors self1)
            ∧ body_keys (JsonPayload payload)
              = {[ "error"; "user_id"; "timestamp"; "system_status" ]}))
  ∧ (∀ e self1,
       printable user_id →
       get_recommendation_except user_id e self1
       = (Ok {| body := JsonError (str_exn e); status_code := 500 |}, self1)
       ∧ body_keys (JsonError (str_exn e)) = {[ "error" ]})
  ∧ (route_accepts user_id → reachable goldmind →
     fst (get_recommendation o user_id goldmind)
     = Ok {| body := JsonPayload
                       (ErrorPayload "name 'random' is not defined" user_id
                                     (datetime_now_error o) "error");
             status_code := 200 |})
  ∧ (¬ printable user_id →
     fst (get_recommendation o user_id goldmind)
     = Raise (ValueError digits_message)).
Proof.
  assert (∀ self, printable user_id →
                  absent_or_stale (time_time o) user_id self →
                  get_recommendation o user_id self
                  = (Ok {| body := JsonPayload
                                     (ErrorPayload "name 'random' is not defined"
                                        user_id (datetime_now_error o) "error");
                           status_code := 200 |},
                     incr_errors (incr_requests_count self))) as Hmiss.
  { intros self Hp H.
    unfold get_recommendation, try_except, mbind, M_bind, lift.
    rewrite (generate_recommendation_miss _ _ _ Hp H). cbn.
    rewrite (str_int_printable _ Hp). reflexivity. }
  split; [| split; [| split]].
  - intros Hp.
    destruct (call_cases (time_time o) user_id goldmind)
      as [[cached_rec H] | [[_ H] | [Hn _]]]; [| | contradiction].
    + left. exists cached_rec. split; [exact H |].
      unfold get_recommendation, try_except, mbind, M_bind, lift.
      rewrite (generate_recommendation_hit _ _ _ _ H).
      destruct (decide (serializable (data cached_rec))) as [Hs | Hs].
      * rewrite (jsonify_serializable _ Hs). reflexivity.
      * rewrite (jsonify_unserializable _ Hs). cbn.
        apply get_recommendation_except_printable, Hp.
    + right. split; [exact H |].
      exists (NameError "random"), (incr_requests_count goldmind).
      split; [apply (generate_recommendation_try_miss _ _ _ Hp H) |].
      cbn zeta. split; [apply (Hmiss _ Hp H) |].
      cbn. set_solver.
  - intros e self1 Hp.
    split; [apply get_recommendation_except_printable, Hp | reflexivity].
  - intros Ha Hr. rewrite Hmiss; [reflexivity | |].
    + apply route_accepts_printable, Ha.
    + apply absent_in_empty_cache, reachable_cache_empty, Hr.
  - intros Hn.
    unfold get_recommendation, try_except, mbind, M_bind.
    rewrite (generate_recommendation_unprintable _ _ _ Hn). cbn.
    unfold get_recommendation_except, mbind, M_bind, lift, logging.
    rewrite (str_int_unprintable _ Hn). reflexivity.
Qed.

(** User 1 on a fresh server, and the [except] clause for the same user. *)
Lemma get_recommendation_status_witness :
  let o := oracle_at 1000 7 in
  printable 1 ∧ route_accepts 1 ∧ reachable (init 0)
  ∧ fst (get_recommendation o 1 (init 0))
    = Ok {| body := JsonPayload
                      (ErrorPayload "name 'random' is not defined" 1 7 "error");
            status_code := 200 |}
  ∧ get_recommendation_except 1 (NameError "random") (init 0)
    = (Ok {| body := JsonError "name 'random' is not defined";
             status_code := 500 |}, init 0).
Proof.
  intros o.
  assert (printable 1) as Hp by (apply small_printable; reflexivity).
  assert (route_accepts 1) as Ha
    by (apply small_route_accepts; split; [discriminate | reflexivity]).
  assert (reachable (init 0)) as Hr by (exists 0, []; reflexivity).
  destruct (get_recommendation_status o 1 (init 0)) as (_ & Hex & Hrun & _).
  split; [exact Hp |]. split; [exact Ha |]. split; [exact Hr |].
  split; [exact (Hrun Ha Hr) |].
  exact (proj1 (Hex (NameError "random") (init 0) Hp)).
Defined.

(** An entry stored under the key of a printable id and younger than the
    timeout is the user's fresh entry. *)
Lemma stored_entry_fresh (current_time : float) (user_id : Z)
    (cache_key : string) (entry : CacheEntry) (self : GoldMINDAPI) :
  cache_key_of user_id = Ok cache_key →
  lt_float_int (current_time - cache_time entry)%float (cache_timeout self)
  = true →
  fresh_entry current_time user_id (cache_store cache_key entry self)
  = Some entry.
Proof.
  intros Hk Hage. unfold fresh_entry. rewrite Hk. cbn.
  rewrite lookup_insert_eq, Hage. reflexivity.
Qed.

(** The one way to status 500: a cached recommendation that [jsonify]
    cannot write.  The entry is served from the cache, the [ValueError] of
    the encoder reaches the view's [except] clause, and the answer is the
    one-key error body. *)
Example get_recommendation_answers_500 :
  fst (get_recommendation (oracle_at 1100 7) 1
         (cache_store "user_1"
            {| data := oversized_recommendation; cache_time := 1000 |}
            (init 0)))
  = Ok {| body := JsonError digits_message; status_code := 500 |}.
Proof.
  assert (printable 1) as Hp by (apply small_printable; reflexivity).
  assert (cache_key_of 1 = Ok "user_1") as Hk
    by (rewrite (cache_key_of_printable _ Hp); reflexivity).
  set (entry := {| data := oversized_recommendation; cache_time := 1000 |}).
  assert (lt_float_int (time_time (oracle_at 1100 7) - cache_time entry)%float
                       (cache_timeout (init 0)) = true) as Hage
    by (vm_compute; reflexivity).
  pose proof (generate_recommendation_hit (oracle_at 1100 7) 1
                (cache_store "user_1" entry (init 0)) entry
                (stored_entry_fresh (time_time (oracle_at 1100 7)) 1 "user_1"
                   entry (init 0) Hk Hage)) as E.
  assert (jsonify (RecommendationPayload (data entry))
          = Raise (ValueError digits_message)) as Ej
    by (apply jsonify_unserializable; intros (_ & H & _);
        exact (limit_unprintable H)).
  unfold get_recommendation, try_except, mbind, M_bind, lift.
  rewrite E, Ej, is_Exception_all.
  rewrite (get_recommendation_except_printable _ _ _ Hp). reflexivity.
Qed.

(** C6 as stated fails: on the first request of a fresh server the pipeline
    raises, and the error object comes back with status 200, not 500. *)
Lemma generation_error_is_not_status_500 :
  ¬ (∀ o user_id goldmind e self1,
       generate_recommendation_try o user_id goldmind = (Raise e, self1) →
       ∃ response goldmind',
         get_recommendation o user_id goldmind = (Ok response, goldmind')
         ∧ body_keys (body response)
           = {[ "error"; "user_id"; "timestamp"; "system_status" ]}
         ∧ status_code response = 500).
Proof.
  intros H.
  assert (printable 1) as Hp by (apply small_printable; reflexivity).
  assert (absent_or_stale (time_time (oracle_at 1000 7)) 1 (init 0)) as Habsent
    by (apply absent_in_empty_cache; reflexivity).
  destruct (H (oracle_at 1000 7) 1 (init 0) _ _
              (generate_recommendation_try_miss _ _ _ Hp Habsent))
    as (response & goldmind' & Hresp & _ & Hstatus).
  revert Hresp.
  unfold get_recommendation, try_except, mbind, M_bind, lift.
  rewrite (generate_recommendation_miss _ _ _ Hp Habsent). cbn.
  rewrite (str_int_printable _ Hp). cbn.
  intros [= <- _]. discriminate Hstatus.
Qed.

(** * Further properties of the code *)

(** ** Cache keys and the cache contract *)

(** X1: the cache keys of different users differ, an entry stored under a
    user's key is what that user's lookup finds, and storing it leaves what
    any other user's lookup finds unchanged. *)
Theorem cache_slots_are_per_user (user_id other : Z) (key other_key : string)
    (entry : CacheEntry) (self : GoldMINDAPI) :
  cache_key_of user_id = Ok key →
  cache_key_of other = Ok other_key →
  (key = other_key ↔ user_id = other)
  ∧ recommendation_cache (cache_store key entry self) !! key = Some entry
  ∧ (user_id ≠ other →
     recommendation_cache (cache_store key entry self) !! other_key
     = recommendation_cache self !! other_key).
Proof.
  unfold cache_key_of. intros Hk Ho.
  destruct (str_int user_id) as [numeral | e] eqn:E1; [| discriminate].
  destruct (str_int other) as [numeral' | e] eqn:E2; [| discriminate].
  rewrite (str_int_printable _ (str_int_ok_printable _ _ E1)) in E1.
  rewrite (str_int_printable _ (str_int_ok_printable _ _ E2)) in E2.
  injection E1 as <-. injection E2 as <-.
  cbn in Hk, Ho. injection Hk as <-. injection Ho as <-.
  assert ("user_" +:+ pretty user_id = "user_" +:+ pretty other
          → user_id = other) as Hinj.
  { intros H. apply (inj (String.app "user_")) in H.
    apply (inj pretty) in H. exact H. }
  split; [split; [exact Hinj | congruence] |].
  split.
  - cbn. apply lookup_insert_eq.
  - intros Hne. cbn. apply lookup_insert_ne. intros H. apply Hne, Hinj, H.
Qed.

Lemma cache_slots_are_per_user_witness :
  cache_key_of 1 = Ok "user_1" ∧ cache_key_of 2 = Ok "user_2" ∧ 1 ≠ 2
  ∧ recommendation_cache
      (cache_store "user_1"
         {| data := sample_recommendation; cache_time := 1000 |} (init 0))
      !! "user_2"
    = recommendation_cache (init 0) !! "user_2".
Proof.
  assert (cache_key_of 1 = Ok "user_1") as H1
    by (rewrite cache_key_of_printable by (apply small_printable; reflexivity);
        reflexivity).
  assert (cache_key_of 2 = Ok "user_2") as H2
    by (rewrite cache_key_of_printable by (apply small_printable; reflexivity);
        reflexivity).
  assert (1 ≠ 2) as H by discriminate.
  split; [exact H1 |]. split; [exact H2 |]. split; [exact H |].
  exact (proj2 (proj2 (cache_slots_are_per_user 1 2 "user_1" "user_2"
           {| data := sample_recommendation; cache_time := 1000 |} (init 0)
           H1 H2)) H).
Defined.

(** X2: an entry stored for a user is served to that user's next request
    for as long as the time since its [cache_time] is below the timeout, and
    such a request only counts the request, neither a success nor an error;
    once the time since [cache_time] has reached the timeout the entry is no
    longer served, yet it is still in the cache after the request. *)
Theorem stored_entry_served_until_stale (o : Oracle) (user_id : Z)
    (key : string) (self : GoldMINDAPI) (r : Recommendation) (written : float) :
  let entry := {| data := r; cache_time := written |} in
  let self1 := cache_store key entry self in
  cache_key_of user_id = Ok key →
  (lt_float_int (time_time o - written)%float (cache_timeout self) = true →
   generate_recommendation o user_id self1
   = (Ok (RecommendationPayload r), incr_requests_count self1))
  ∧ (lt_float_int (time_time o - written)%float (cache_timeout self) = false →
     fst (generate_recommendation o user_id self1)
     = Ok (ErrorPayload "name 'random' is not defined" user_id
                        (datetime_now_error o) "error")
     ∧ recommendation_cache (snd (generate_recommendation o user_id self1))
         !! key = Some entry).
Proof.
  intros entry self1 Hk.
  assert (printable user_id) as Hp.
  { unfold cache_key_of in Hk.
    destruct (str_int user_id) as [numeral | e] eqn:E; [| discriminate].
    exact (str_int_ok_printable _ _ E). }
  split; intros Hage.
  - apply (generate_recommendation_hit o user_id self1 entry).
    apply stored_entry_fresh; assumption.
  - assert (absent_or_stale (time_time o) user_id self1) as Hstale.
    { unfold absent_or_stale, fresh_entry. rewrite Hk. cbn.
      rewrite lookup_insert_eq. cbn. rewrite Hage. reflexivity. }
    rewrite (generate_recommendation_miss _ _ _ Hp Hstale). cbn.
    split; [reflexivity | apply lookup_insert_eq].
Qed.

(** An entry written at 1000 s: served at 1100 s, stale at exactly 1300 s. *)
Lemma stored_entry_served_until_stale_witness :
  let self1 := cache_store "user_1"
                 {| data := sample_recommendation; cache_time := 1000 |}
                 (init 0) in
  cache_key_of 1 = Ok "user_1"
  ∧ generate_recommendation (oracle_at 1100 7) 1 self1
    = (Ok (RecommendationPayload sample_recommendation), incr_requests_count self1)
  ∧ fst (generate_recommendation (oracle_at 1300 7) 1 self1)
    = Ok (ErrorPayload "name 'random' is not defined" 1 7 "error").
Proof.
  intros self1.
  assert (cache_key_of 1 = Ok "user_1") as Hk
    by (rewrite cache_key_of_printable by (apply small_printable; reflexivity);
        reflexivity).
  split; [exact Hk |]. split.
  - apply (proj1 (stored_entry_served_until_stale (oracle_at 1100 7) 1 "user_1"
                    (init 0) sample_recommendation 1000 Hk)).
    vm_compute. reflexivity.
  - apply (proj2 (stored_entry_served_until_stale (oracle_at 1300 7) 1 "user_1"
                    (init 0) sample_recommendation 1000 Hk)).
    vm_compute. reflexivity.
Defined.

(** ** The running server *)

Lemma count_recommendations_snoc (rs : list Request) (r : Request) :
  count_recommendations (rs ++ [r])
  = count_recommendations rs + (if is_recommendation_request r then 1 else 0).
Proof.
  unfold count_recommendations.
  rewrite List.filter_app, length_app, Nat2Z.inj_add. cbn.
  destruct (is_recommendation_request r); reflexivity.
Qed.

Lemma count_recommendations_nonneg (rs : list Request) :
  0 <= count_recommendations rs.
Proof. unfold count_recommendations. lia. Qed.

Lemma after_failures_absent (current_time : float) (user_id start n : Z) :
  absent_or_stale current_time user_id (after_failures start n).
Proof. apply absent_in_empty_cache. reflexivity. Qed.

(** The instance after any sequence of requests, in closed form. *)
Lemma serve_all_init (start : Z) (rs : list Request) :
  serve_all rs (init start) = after_failures start (count_recommendations rs).
Proof.
  induction rs as [| r rs IH] using rev_ind; [reflexivity |].
  rewrite serve_all_snoc, count_recommendations_snoc, IH.
  destruct r as [o user_id | | | |]; cbn [serve is_recommendation_request];
    rewrite ?Z.add_0_r; try reflexivity.
  rewrite get_recommendation_state.
  rewrite (generate_recommendation_no_hit_state _ _ _
             (after_failures_absent _ _ _ _)).
  reflexivity.
Qed.

(** X3: after any sequence of requests, whatever their user ids, the
    server's state depends only on how many of them asked for a
    recommendation: [requests_count] and [errors] both equal that number,
    [successful_recommendations] is 0, the cache is empty, and
    configuration, timeout and start time are as [__init__] set them;
    [get_system_metrics] reports exactly these values, with cache size 0 and
    timeout 300. *)
Theorem running_server_metrics (start now : Z) (rs : list Request) :
  let n := count_recommendations rs in
  serve_all rs (init start)
  = {| config := config (init start);
       recommendation_cache := ∅;
       cache_timeout := 300;
       system_metrics := {| requests_count := n;
                            successful_recommendations := 0;
                            errors := n;
                            uptime_start := start |} |}
  ∧ get_system_metrics now (serve_all rs (init start))
    = {| metrics_timestamp := now;
         metrics := {| requests_count := n;
                       successful_recommendations := 0;
                       errors := n;
                       uptime_start := start |};
         cache_status_size := 0;
         cache_status_timeout := 300 |}.
Proof.
  intros n. rewrite serve_all_init. split; reflexivity.
Qed.

(** X4: on the running server [health_check] never raises, whatever was
    served before, and its report always shows a success rate of 0.0 and an
    empty cache, with [error_count] equal to [total_requests], the number of
    recommendation requests served so far. *)
Theorem running_server_health (start now_uptime now_timestamp : Z)
    (rs : list Request) :
  ∃ report,
    health_check now_uptime now_timestamp (serve_all rs (init start)) = Ok report
    ∧ health_status report = "healthy"
    ∧ version report = "1.0.0"
    ∧ total_requests (health_metrics report) = count_recommendations rs
    ∧ error_count (health_metrics report) = count_recommendations rs
    ∧ health_successful_recommendations (health_metrics report) = 0
    ∧ success_rate (health_metrics report) = 0%float
    ∧ cache_size (health_metrics report) = 0.
Proof.
  rewrite serve_all_init.
  pose proof (count_recommendations_nonneg rs) as Hn.
  unfold health_check, after_failures. cbn -[total_seconds int_of_float].
  rewrite (int_truediv_fraction 0 (Z.max (count_recommendations rs) 1))
    by lia.
  cbn -[total_seconds int_of_float].
  eexists. split; [reflexivity |]. cbn. repeat split.
Qed.

(** X5: every recommendation request to the running server for a user id of
    at most 4300 digits, whatever the requests before it, the clock and the
    random draws, is answered with status 200 and the error object carrying
    the message [name 'random' is not defined]; for a longer id the view
    raises [ValueError]; either way no request yields a recommendation and
    the cache stays empty. *)
Theorem running_server_never_recommends (start : Z) (rs : list Request)
    (o : Oracle) (user_id : Z) :
  let goldmind := serve_all rs (init start) in
  (printable user_id →
   fst (get_recommendation o user_id goldmind)
   = Ok {| body := JsonPayload
                     (ErrorPayload "name 'random' is not defined" user_id
                                   (datetime_now_error o) "error");
           status_code := 200 |})
  ∧ (¬ printable user_id →
     fst (get_recommendation o user_id goldmind)
     = Raise (ValueError digits_message))
  ∧ recommendation_cache (snd (get_recommendation o user_id goldmind)) = ∅.
Proof.
  cbn zeta. rewrite serve_all_init.
  split; [| split].
  - intros Hp.
    unfold get_recommendation, try_except, mbind, M_bind, lift.
    rewrite (generate_recommendation_miss _ _ _ Hp
               (after_failures_absent _ _ _ _)).
    cbn. rewrite (str_int_printable _ Hp). reflexivity.
  - intros Hn.
    unfold get_recommendation, try_except, mbind, M_bind.
    rewrite (generate_recommendation_unprintable _ _ _ Hn). cbn.
    unfold get_recommendation_except, mbind, M_bind, lift, logging.
    rewrite (str_int_unprintable _ Hn). reflexivity.
  - rewrite get_recommendation_state, generate_recommendation_cache.
    reflexivity.
Qed.

Lemma running_server_never_recommends_witness :
  printable 1 ∧ ¬ printable str_int_limit
  ∧ fst (get_recommendation (oracle_at 1000 7) 1
           (serve_all [GetHealth 1 2; GetRecommendation (oracle_at 5 6) 3]
              (init 0)))
    = Ok {| body := JsonPayload
                      (ErrorPayload "name 'random' is not defined" 1 7 "error");
            status_code := 200 |}
  ∧ fst (get_recommendation (oracle_at 1000 7) str_int_limit
           (serve_all [] (init 0)))
    = Raise (ValueError digits_message).
Proof.
  assert (printable 1) as Hp by (apply small_printable; reflexivity).
  split; [exact Hp |]. split; [exact limit_unprintable |]. split.
  - exact (proj1 (running_server_never_recommends 0
                    [GetHealth 1 2; GetRecommendation (oracle_at 5 6) 3]
                    (oracle_at 1000 7) 1) Hp).
  - exact (proj1 (proj2 (running_server_never_recommends 0 []
                           (oracle_at 1000 7) str_int_limit))
             limit_unprintable).
Defined.

(** ** The decision rule and what follows it *)




(** ** Confidence values *)


(** X9: for one and the same market, the confidence of an expert is never
    below that of any other profile, and the confidence of a beginner never
    above. *)
Theorem calculate_confidence_by_experience (expert beginner other : UserProfile)
    (market_conditions : MarketConditions) :
  experience_level expert = "expert" →
  experience_level beginner = "beginner" →
  PrimFloat.leb (calculate_confidence other market_conditions)
                (calculate_confidence expert market_conditions) = true
  ∧ PrimFloat.leb (calculate_confidence beginner market_conditions)
                  (calculate_confidence other market_conditions) = true
  ∧ PrimFloat.ltb (calculate_confidence beginner market_conditions)
                  (calculate_confidence expert market_conditions) = true.
Proof.
  intros He Hb. unfold calculate_confidence. rewrite He, Hb.
  destruct (PrimFloat.leb (of_Z 30) (rsi market_conditions)
            && PrimFloat.leb (rsi market_conditions) (of_Z 70));
    destruct (String.eqb (trend market_conditions) "sideways");
    destruct (String.eqb (experience_level other) "expert");
    destruct (String.eqb (experience_level other) "beginner");
    vm_compute; auto.
Qed.

Lemma calculate_confidence_by_experience_witness :
  PrimFloat.ltb
    (calculate_confidence (profile_with "moderate" "beginner")
                          (market_with 50 "bullish"))
    (calculate_confidence (profile_with "moderate" "expert")
                          (market_with 50 "bullish")) = true.
Proof.
  exact (proj2 (proj2 (calculate_confidence_by_experience
                         (profile_with "moderate" "expert")
                         (profile_with "moderate" "beginner")
                         (profile_with "moderate" "intermediate")
                         (market_with 50 "bullish") eq_refl eq_refl))).
Defined.

(** ** The market analysis *)

(** X10: [get_market_analysis] always succeeds, whatever the random draws:
    the trend is bullish, bearish or sideways, the Bollinger position upper,
    middle or lower, each picked by its draw, the volume is the integer
    drawn, and the reported volatility is always 2.0. *)
Theorem get_market_analysis_fields (o : Oracle) :
  ∃ market_conditions,
    get_market_analysis o = Ok market_conditions
    ∧ [ "bullish"; "bearish"; "sideways" ] !! (choice_trend o mod 3)%nat
      = Some (trend market_conditions)
    ∧ [ "upper"; "middle"; "lower" ] !! (choice_bollinger o mod 3)%nat
      = Some (bollinger_position market_conditions)
    ∧ volume market_conditions = randint_volume o
    ∧ volatility market_conditions = 2%float.
Proof.
  unfold get_market_analysis, random_choice. cbn [length].
  assert (choice_bollinger o mod 3 < 3)%nat as Hb
    by (apply Nat.mod_upper_bound; lia).
  assert (choice_trend o mod 3 < 3)%nat as Ht
    by (apply Nat.mod_upper_bound; lia).
  destruct (choice_bollinger o mod 3)%nat as [| [| [| k]]]; [| | | lia];
    destruct (choice_trend o mod 3)%nat as [| [| [| k']]]; try lia;
    eexists; (split; [reflexivity |]); cbn; repeat split.
Qed.
